(** * data-loader: schema-driven SQL generation and load orchestration

    A shallow embedding of [internal/dataloader] (package [dataloader]):
    the schema parser [marshalTableSchema], the query builders
    [buildCreateTableQuery] and [buildCopyFromS3Query], and the orchestrator
    [LoadDataFileToRedshift] with the helpers it calls.

    Conventions.
    - A Go [string] is a byte sequence: [string] (a list of 8-bit [ascii]).
    - A Go [int] is 64 bits wide (the Makefile builds with GOARCH=amd64);
      values are [Z], lengths are [nat].
    - A Go [error] is a value of [error]; [nil] is [None] in [option error].
      A function returning [(T, error)] returns a pair here.
    - A run-time panic (index out of range) is the [Panic] outcome.
    - The go-kit logger calls ([level.Info(...).Log], [level.Debug(...).Log])
      are not part of the embedding: their results are discarded by the code
      and they never influence control flow or the statements generated.
    - [context.Context] values are forwarded unchanged by the code and are
      not modelled. *)

From stdpp Require Import base decidable option list strings gmap pretty.
From Stdlib Require Import ZArith Lia Ascii.

Local Open Scope string_scope.
Local Open Scope Z_scope.
Local Open Scope list_scope.

(** ** Errors *)

(** The two sentinel errors of [strconv]. *)
Inductive strconvErr : Type :=
  | ErrSyntax   (* invalid syntax *)
  | ErrRange.   (* value out of range *)

(** The sentinel errors of [encoding/csv]. *)
Inductive csvErr : Type :=
  | ErrBareQuote   (* bare quote in non-quoted field *)
  | ErrQuote       (* extraneous or missing quote in quoted field *)
  | ErrFieldCount. (* wrong number of fields *)

(** The dynamic types of the [error] values this package can return:
    [*errors.errorString] (made by [fmt.Errorf] and [errors.New]),
    [*strconv.NumError] and [*csv.ParseError] (line and column left out). *)
Inductive error : Type :=
  | errorString (s : string)
  | NumError (Func Num : string) (Err : strconvErr)
  | ParseError (Err : csvErr).

#[global] Instance strconvErr_eq_dec : EqDecision strconvErr.
Proof. solve_decision. Defined.
#[global] Instance csvErr_eq_dec : EqDecision csvErr.
Proof. solve_decision. Defined.
#[global] Instance error_eq_dec : EqDecision error.
Proof. solve_decision. Defined.

(** ** Library functions used by the package *)

Module strconv.

(** [intSize] on amd64. *)
Definition intSize : Z := 64.

Definition syntaxError (fn str : string) : error := NumError fn str ErrSyntax.
Definition rangeError (fn str : string) : error := NumError fn str ErrRange.

Definition byte_val (ch : ascii) : Z := Z.of_nat (nat_of_ascii ch).

(** The fast path of [Atoi]: [ch -= '0'; if ch > 9 { syntax error };
    n = n*10 + int(ch)], on unsigned bytes. *)
Fixpoint atoi_fast (s : string) (n : Z) : option Z :=
  match s with
  | EmptyString => Some n
  | String ch s' =>
      let d := (byte_val ch - 48) `mod` 256 in
      if 9 <? d then None else atoi_fast s' (n * 10 + d)
  end.

Definition maxUint64 : Z := 2 ^ 64 - 1.

(** The digit loop of [ParseUint(s, 10, 64)]: a byte that is not a
    decimal digit is a syntax error, an overflow of the 64-bit accumulator
    a range error, whichever comes first. *)
Fixpoint parseUint_loop (s : string) (n : Z) : Z + strconvErr :=
  match s with
  | EmptyString => inl n
  | String c s' =>
      let v := byte_val c in
      if (48 <=? v) && (v <=? 57) then
        let d := v - 48 in
        if maxUint64 / 10 + 1 <=? n then inr ErrRange
        else
          let n1 := n * 10 + d in
          if maxUint64 <? n1 then inr ErrRange else parseUint_loop s' n1
      else inr ErrSyntax
  end.

Definition ParseUint (s : string) : Z + strconvErr :=
  match s with
  | EmptyString => inr ErrSyntax
  | _ => parseUint_loop s 0
  end.

(** [ParseInt(s, 10, 0)]: optional sign, then [ParseUint], then the
    check against the range of a 64-bit signed integer. *)
Definition ParseInt (s : string) : Z + strconvErr :=
  match s with
  | EmptyString => inr ErrSyntax
  | String c s' =>
      let neg := bool_decide (c = "-"%char) in
      let body := if bool_decide (c = "+"%char) || neg then s' else s in
      match ParseUint body with
      | inr ErrSyntax => inr ErrSyntax
      | inr ErrRange => inr ErrRange
      | inl un =>
          let cutoff := 2 ^ (intSize - 1) in
          if negb neg && (cutoff <=? un) then inr ErrRange
          else if neg && (cutoff <? un) then inr ErrRange
          else inl (if neg then - un else un)
      end
  end.

(** [strconv.Atoi]. *)
Definition Atoi (s : string) : Z * option error :=
  let sLen := String.length s in
  if ((0 <? sLen) && (sLen <? 19))%nat then
    match s with
    | EmptyString => (0, Some (syntaxError "Atoi" s))
    | String c s' =>
        let signed := bool_decide (c = "-"%char) || bool_decide (c = "+"%char) in
        let body := if signed then s' else s in
        if signed && (String.length body <? 1)%nat then
          (0, Some (syntaxError "Atoi" s))
        else
          match atoi_fast body 0 with
          | None => (0, Some (syntaxError "Atoi" s))
          | Some n => (if bool_decide (c = "-"%char) then - n else n, None)
          end
    end
  else
    match ParseInt s with
    | inl i64 => (i64, None)
    | inr ErrSyntax => (0, Some (syntaxError "Atoi" s))
    | inr ErrRange =>
        (* the clamped value accompanies the error *)
        (match s with
         | String "-" _ => - 2 ^ (intSize - 1)
         | _ => 2 ^ (intSize - 1) - 1
         end, Some (rangeError "Atoi" s))
    end.

End strconv.

(** ** Data model *)

Record dBColumnSchema : Type := {
  Name : string;
  Width : string;
  DataType : string
}.

(** The configuration fields of [DataLoader]. The collaborators it also
    holds ([DB], [S3Svc]) are the capability interfaces of section
    [Orchestrator]; [Logger] is not modelled. *)
Record DataLoader : Type := {
  Env : string;
  DataBucket : string;
  SchemaBucket : string
}.

(** ** Query builders *)

(** [fmt.Sprintf] with the verb [%d] on a column count. *)
Definition fmt_d (n : nat) : string := pretty n.

(** The error values built with [fmt.Errorf] in [buildCreateTableQuery],
    under the names the specification gives them. *)
Definition InvalidSchemaError (numOfCol : nat) : error :=
  errorString ("invalid number of columns defined in expectedSchema: " +:+ fmt_d numOfCol).
Definition DuplicateColumnError (name : string) : error :=
  errorString ("duplicate column name passed in expectedSchema: " +:+ name).
Definition WidthExceededError (width : string) : error :=
  errorString ("passed column width " +:+ width +:+ " is larger then TEXT field allows").
Definition UnsupportedTypeError (dataType : string) : error :=
  errorString ("unknown data type passed " +:+ dataType).

(** The [switch colProps.DataType] of the loop body: the rendered type
    of one column, or the error the switch returns with. *)
Definition renderedDataType (colProps : dBColumnSchema) : string * option error :=
  if decide (DataType colProps = "TEXT") then
    let '(textWidth, err) := strconv.Atoi (Width colProps) in
    match err with
    | Some e => ("", Some e)
    | None =>
        if negb (textWidth <=? 256) then
          ("", Some (WidthExceededError (Width colProps)))
        else ("VARCHAR(" +:+ Width colProps +:+ ")", None)
    end
  else if decide (DataType colProps = "INTEGER") then (DataType colProps, None)
  else if decide (DataType colProps = "BOOLEAN") then (DataType colProps, None)
  else ("", Some (UnsupportedTypeError (DataType colProps))).

(** The [for _, colProps := range dbColumns] loop, with the three
    variables it updates: the builder [sb], [prefix] and the name [set]. *)
Fixpoint createTableLoop (dbColumns : list dBColumnSchema)
    (sb prefix : string) (set : gset string) : string * option error :=
  match dbColumns with
  | [] => (sb +:+ ");", None)
  | colProps :: rest =>
      if decide (Name colProps ∈ set) then
        ("", Some (DuplicateColumnError (Name colProps)))
      else
        let set := {[Name colProps]} ∪ set in
        let sb := sb +:+ prefix in
        match renderedDataType colProps with
        | (_, Some e) => ("", Some e)
        | (rendered, None) =>
            let sb := sb +:+ (" " +:+ Name colProps +:+ " " +:+ rendered) in
            createTableLoop rest sb "," set
        end
  end.

Definition buildCreateTableQuery (d : DataLoader) (tableName : string)
    (dbColumns : list dBColumnSchema) : string * option error :=
  let numOfCol := length dbColumns in
  if (numOfCol =? 0)%nat || (1600 <? numOfCol)%nat then
    ("", Some (InvalidSchemaError numOfCol))
  else
    createTableLoop dbColumns ("CREATE TABLE " +:+ tableName +:+ "(") "" ∅.

(** The [for _, colProps := range schema] loop of [buildCopyFromS3Query]. *)
Fixpoint copyLoop (schema : list dBColumnSchema) (sb prefix : string) : string :=
  match schema with
  | [] => sb
  | colProps :: rest =>
      let sb := sb +:+ prefix in
      let sb := sb +:+ (Name colProps +:+ ":" +:+ Width colProps) in
      copyLoop rest sb ", "
  end.

Definition buildCopyFromS3Query (d : DataLoader) (schema : list dBColumnSchema)
    (tableName copyTarget : string) : string :=
  let sb :=
    "COPY " +:+ tableName +:+ " FROM 's3://" +:+ DataBucket d +:+ "/" +:+ copyTarget
    +:+ "' IAM_ROLE 'arn:aws:iam::" +:+ "653026974230" +:+ ":role/"
    +:+ ("data-loader-redshift-copy-" +:+ Env d +:+ "-us-west-2")
    +:+ "' FIXEDWIDTH '" in
  let sb := copyLoop schema sb "" in
  sb +:+ "';".

(** ** Outcomes: a call returns, or the goroutine panics *)

Inductive panic : Type :=
  | IndexOutOfRange (index len : nat).

Inductive outcome (A : Type) : Type :=
  | Ret (a : A)
  | Panic (p : panic).
Arguments Ret {A} a.
Arguments Panic {A} p.

(** [s[i]] on a slice. *)
Definition index {A : Type} (s : list A) (i : nat) : outcome A :=
  match s !! i with
  | Some x => Ret x
  | None => Panic (IndexOutOfRange i (length s))
  end.

(** ** [encoding/csv] with the default [Reader] configuration

    [Comma] is a comma, no [Comment] character, [FieldsPerRecord] is 0 (the
    first record fixes the field count of all the others), [LazyQuotes] and
    [TrimLeadingSpace] are off. The reader works line by line; the input is
    the whole content of the stream (read errors of the underlying stream
    are not modelled). *)
Module csv.

Definition LF : ascii := "010"%char.
Definition CR : ascii := "013"%char.
Definition quote : ascii := "034"%char.
Definition comma : ascii := ","%char.

Definition snoc (s : string) (c : ascii) : string := s +:+ String c "".

(** Drop one trailing carriage return. *)
Fixpoint dropCR (s : string) : string :=
  match s with
  | "" => ""
  | String c "" => if decide (c = CR) then "" else s
  | String c s' => String c (dropCR s')
  end.

(** The lines that successive calls of [readLine] return: each ends with
    its line feed, a CR LF pair is normalised to LF, and a last line
    without line feed loses one trailing CR. [line] is the part of the
    current line already read. *)
Fixpoint readLines (input line : string) : list string :=
  match input with
  | "" => if decide (line = "") then [] else [dropCR line]
  | String c input' =>
      if decide (c = LF) then snoc (dropCR line) LF :: readLines input' ""
      else readLines input' (snoc line c)
  end.

Inductive mode : Type :=
  | FieldStart   (* at the first byte of a field *)
  | Unquoted     (* inside a non-quoted field *)
  | Quoted       (* inside a quoted field *)
  | QuoteSeen.   (* just after a quote inside a quoted field *)

Inductive lineResult : Type :=
  | RecordDone (fields : list string)
  | NeedLine (fields : list string) (field : string)
  | LineErr (e : csvErr).

(** [c] followed by [rest] is the line feed that ends the line
    ([lengthNL(line) == len(line)] in the reader). *)
Definition isLastLF (c : ascii) (rest : string) : bool :=
  bool_decide (c = LF) && bool_decide (rest = "").

(** The [parseField] loop of [readRecord] on one line, byte by byte.
    [fields] are the fields completed so far, [field] the bytes of the
    current one. In a non-quoted field a comma ends the field, the line feed
    that ends the line ends the record, and a quote is an error; in a quoted
    field a doubled quote stands for a quote, and the closing quote must be
    followed by a comma or the end of the line. *)
Fixpoint parseLine (line : string) (m : mode) (fields : list string)
    (field : string) : lineResult :=
  match line with
  | "" =>
      match m with
      | Quoted => NeedLine fields field
      | _ => RecordDone (fields ++ [field])
      end
  | String c rest =>
      match m with
      | FieldStart | Unquoted =>
          if (if m is FieldStart then true else false) && bool_decide (c = quote) then
            parseLine rest Quoted fields ""
          else if decide (c = comma) then
            parseLine rest FieldStart (fields ++ [field]) ""
          else if isLastLF c rest then RecordDone (fields ++ [field])
          else if decide (c = quote) then LineErr ErrBareQuote
          else parseLine rest Unquoted fields (snoc field c)
      | Quoted =>
          if decide (c = quote) then parseLine rest QuoteSeen fields field
          else parseLine rest Quoted fields (snoc field c)
      | QuoteSeen =>
          if decide (c = quote) then parseLine rest Quoted fields (snoc field quote)
          else if decide (c = comma) then
            parseLine rest FieldStart (fields ++ [field]) ""
          else if isLastLF c rest then RecordDone (fields ++ [field])
          else LineErr ErrQuote
      end
  end.

(** [ReadAll]: the loop over [readRecord]. [pending] holds the state of a
    quoted field that continues on the next line, [FieldsPerRecord] is the
    reader's field of that name. *)
Fixpoint readRecords (lines : list string)
    (pending : option (list string * string)) (FieldsPerRecord : nat)
    (records : list (list string)) : list (list string) * option error :=
  match lines with
  | [] =>
      match pending with
      | None => (records, None)
      | Some _ => ([], Some (ParseError ErrQuote))
      end
  | line :: lines' =>
      let parsed :=
        match pending with
        | None =>
            if bool_decide (line = "") || bool_decide (line = String LF "") then None
            else Some (parseLine line FieldStart [] "")
        | Some (fields, field) => Some (parseLine line Quoted fields field)
        end in
      match parsed with
      | None => readRecords lines' None FieldsPerRecord records
      | Some (LineErr e) => ([], Some (ParseError e))
      | Some (NeedLine fields field) =>
          readRecords lines' (Some (fields, field)) FieldsPerRecord records
      | Some (RecordDone fields) =>
          if (0 <? FieldsPerRecord)%nat then
            if negb (length fields =? FieldsPerRecord)%nat then
              ([], Some (ParseError ErrFieldCount))
            else readRecords lines' None FieldsPerRecord (records ++ [fields])
          else readRecords lines' None (length fields) (records ++ [fields])
      end
  end.

Definition ReadAll (input : string) : list (list string) * option error :=
  readRecords (readLines input "") None 0 [].

End csv.

(** ** Marshaller *)

(** The [for i, line := range lines] loop of [marshalTableSchema]. *)
Fixpoint marshalLoop (lines : list (list string)) (i : nat)
    (dbColumns : list dBColumnSchema) : outcome (list dBColumnSchema) :=
  match lines with
  | [] => Ret dbColumns
  | line :: rest =>
      if (i =? 0)%nat then marshalLoop rest (S i) dbColumns
      else
        match index line 0 with
        | Panic p => Panic p
        | Ret name =>
        match index line 1 with
        | Panic p => Panic p
        | Ret width =>
        match index line 2 with
        | Panic p => Panic p
        | Ret dataType =>
            marshalLoop rest (S i)
              (dbColumns ++ [{| Name := name; Width := width; DataType := dataType |}])
        end end end
  end.

Definition marshalTableSchema (rawSchema : string)
    : outcome (list dBColumnSchema * option error) :=
  let '(lines, err) := csv.ReadAll rawSchema in
  match err with
  | Some e => Ret ([], Some e)
  | None =>
      match marshalLoop lines 0 [] with
      | Panic p => Panic p
      | Ret dbColumns => Ret (dbColumns, None)
      end
  end.

(** ** Orchestrator *)

Module strings.

(** [strings.Split(s, sep)] for a separator of one byte: the pieces of [s]
    between the occurrences of [sep]; [piece] is the part of the current
    piece already scanned. The result is never empty. *)
Fixpoint splitByte (s : string) (sep : ascii) (piece : string) : list string :=
  match s with
  | "" => [piece]
  | String c s' =>
      if decide (c = sep) then piece :: splitByte s' sep ""
      else splitByte s' sep (piece +:+ String c "")
  end.

Definition Split (s : string) (sep : ascii) : list string := splitByte s sep "".

End strings.

(** The rows a query returns; [rows.Next()] on a fresh result says whether
    there is a first row. *)
Definition Rows : Type := list (list string).

Definition Next (rows : Rows) : bool :=
  match rows with
  | [] => false
  | _ :: _ => true
  end.

(** The outbound calls a run makes, in the order it makes them. *)
Inductive event : Type :=
  | EvGetObject (bucket key : string)
  | EvQuery (query : string) (args : list string)
  | EvExec (query : string).

(** The capability interfaces the loader calls into: the object storage
    reader ([S3Svc.GetObjectWithContext], giving the content of the body)
    and the relational executor ([DB.QueryContext], [DB.ExecContext]). Each
    is a transition on the state [World] of the outside. *)
Record Collaborators (World : Type) : Type := {
  GetObjectWithContext : string → string → World → (string * option error) * World;
  QueryContext : string → list string → World → (Rows * option error) * World;
  ExecContext : string → World → option error * World
}.
Arguments GetObjectWithContext {World} _ _ _ _.
Arguments QueryContext {World} _ _ _ _.
Arguments ExecContext {World} _ _ _.

(** The state a run threads: the outside world and the calls made so far. *)
Record state (World : Type) : Type := {
  world : World;
  trace : list event
}.
Arguments world {World} _.
Arguments trace {World} _.
Arguments Build_state {World} _ _.

(** Computations that call the collaborators and may panic. *)
Definition M (World A : Type) : Type := state World → outcome A * state World.

#[global] Instance M_ret {World : Type} : MRet (M World) :=
  λ A a s, (Ret a, s).

#[global] Instance M_bind {World : Type} : MBind (M World) :=
  λ A B k m s,
    match m s with
    | (Ret a, s') => k a s'
    | (Panic p, s') => (Panic p, s')
    end.

(** A call that does not touch the collaborators. *)
Definition lift {World A : Type} (o : outcome A) : M World A := λ s, (o, s).

Definition tableExistsQuery : string :=
  "SELECT TRUE WHERE EXISTS(SELECT * FROM INFORMATION_SCHEMA.TABLES WHERE TABLE_NAME = $1);".

Section Orchestrator.

Context {World : Type} (C : Collaborators World).

Definition getObject (bucket key : string) : M World (string * option error) :=
  λ s, let '(r, w) := GetObjectWithContext C bucket key (world s) in
       (Ret r, Build_state w (trace s ++ [EvGetObject bucket key])).

Definition query (q : string) (args : list string) : M World (Rows * option error) :=
  λ s, let '(r, w) := QueryContext C q args (world s) in
       (Ret r, Build_state w (trace s ++ [EvQuery q args])).

Definition exec (q : string) : M World (option error) :=
  λ s, let '(r, w) := ExecContext C q (world s) in
       (Ret r, Build_state w (trace s ++ [EvExec q])).

Definition fetchTableSchema (d : DataLoader) (targetName : string)
    : M World (string * option error) :=
  '(body, err) ← getObject (SchemaBucket d) (targetName +:+ ".csv");
  match err with
  | Some e => mret ("", Some e)
  | None => mret (body, None)
  end.

Definition checkIfRedShiftTableExists (d : DataLoader) (tableName : string)
    : M World (bool * option error) :=
  '(rows, err) ← query tableExistsQuery [tableName];
  match err with
  | Some e => mret (false, Some e)
  | None => if negb (Next rows) then mret (false, None) else mret (true, None)
  end.

Definition executeRedShiftCopyCommand (d : DataLoader)
    (schema : list dBColumnSchema) (tableName copyTarget : string)
    : M World (option error) :=
  err ← exec (buildCopyFromS3Query d schema tableName copyTarget);
  match err with
  | Some e => mret (Some e)
  | None => mret err
  end.

Definition createTable (d : DataLoader) (tableName : string)
    (schema : list dBColumnSchema) : M World (option error) :=
  let '(createTableQuery, err) := buildCreateTableQuery d tableName schema in
  match err with
  | Some e => mret (Some e)
  | None => err ← exec createTableQuery; mret err
  end.

Definition LoadDataFileToRedshift (d : DataLoader) (fileName : string)
    : M World (option error) :=
  targetName ← lift (index (strings.Split fileName "_") 0);
  '(rawSchema, err) ← fetchTableSchema d targetName;
  match err with
  | Some e => mret (Some e)
  | None =>
  '(schema, err) ← lift (marshalTableSchema rawSchema);
  match err with
  | Some e => mret (Some e)
  | None =>
  '(redShiftTableExists, err) ← checkIfRedShiftTableExists d targetName;
  match err with
  | Some e => mret (Some e)
  | None =>
  err ← (if negb redShiftTableExists
          then createTable d targetName schema
          else mret None);
  match err with
  | Some e => mret (Some e)
  | None => executeRedShiftCopyCommand d schema targetName fileName
  end end end end.

End Orchestrator.


(** ** The statements as the specification words them *)

(** A column the validator accepts: a supported type and, for TEXT, a
    width that parses to an integer of at most 256. *)
Definition validColumn (c : dBColumnSchema) : Prop :=
  (DataType c = "TEXT" ∧ ∃ n, strconv.Atoi (Width c) = (n, None) ∧ n ≤ 256)
  ∨ DataType c = "INTEGER" ∨ DataType c = "BOOLEAN".

(** A numeric string: an optional sign, then one or more decimal digits. *)
Definition isDigit (c : ascii) : bool :=
  (48 <=? strconv.byte_val c) && (strconv.byte_val c <=? 57).

Fixpoint allDigits (s : string) : bool :=
  match s with
  | "" => true
  | String c s' => isDigit c && allDigits s'
  end.

Definition numeric (s : string) : bool :=
  match s with
  | "" => false
  | String c s' =>
      if bool_decide (c = "-"%char) || bool_decide (c = "+"%char)
      then negb (bool_decide (s' = "")) && allDigits s'
      else allDigits s
  end.

(** The type of a column clause: VARCHAR(Width) for TEXT, the literal
    INTEGER or BOOLEAN otherwise. *)
Definition specType (c : dBColumnSchema) : string :=
  if decide (DataType c = "TEXT") then "VARCHAR(" +:+ Width c +:+ ")"
  else if decide (DataType c = "INTEGER") then "INTEGER"
  else "BOOLEAN".

(** A column clause: a space, the name, a space, the type. *)
Definition columnClause (c : dBColumnSchema) : string :=
  " " +:+ Name c +:+ " " +:+ specType c.

(** The clauses of a list of items, separated by [sep]. *)
Definition joinWith (sep : string) (items : list string) : string :=
  String.concat sep items.

Definition specCreateTable (tableName : string) (schema : list dBColumnSchema) : string :=
  "CREATE TABLE " +:+ tableName +:+ "(" +:+ joinWith "," (columnClause <$> schema) +:+ ");".

(** A name:width pair of the FIXEDWIDTH clause. *)
Definition widthPair (c : dBColumnSchema) : string :=
  Name c +:+ ":" +:+ Width c.

Definition specRoleArn (env : string) : string :=
  "arn:aws:iam::653026974230:role/data-loader-redshift-copy-" +:+ env +:+ "-us-west-2".

Definition specCopy (d : DataLoader) (schema : list dBColumnSchema)
    (tableName sourceObjectKey : string) : string :=
  "COPY " +:+ tableName +:+ " FROM 's3://" +:+ DataBucket d +:+ "/" +:+ sourceObjectKey
  +:+ "' IAM_ROLE '" +:+ specRoleArn (Env d) +:+ "' FIXEDWIDTH '"
  +:+ joinWith ", " (widthPair <$> schema) +:+ "';".

(** The column a three-field row of the schema file stands for. *)
Definition rowColumn (line : list string) : dBColumnSchema :=
  {| Name := default "" (line !! 0%nat);
     Width := default "" (line !! 1%nat);
     DataType := default "" (line !! 2%nat) |}.

(** The target table of a file: the part of its name before the first
    underscore. *)
Definition targetTable (fileName : string) : string :=
  default "" (head (strings.Split fileName "_")).

(** The calls a run makes before it executes a statement. *)
Definition callsBeforeExec (d : DataLoader) (fileName : string) : list event :=
  [ EvGetObject (SchemaBucket d) (targetTable fileName +:+ ".csv");
    EvQuery tableExistsQuery [targetTable fileName] ].

(** The items of a list, each but the first preceded by [sep], the first by
    [prefix]: what a loop with a [prefix] variable writes. *)
Fixpoint writtenWith (sep prefix : string) (items : list string) : string :=
  match items with
  | [] => ""
  | x :: rest => prefix +:+ x +:+ writtenWith sep sep rest
  end.

(** ** Plain schema files *)

Definition newline : string := String csv.LF "".
Definition dquote : string := String csv.quote "".

(** A schema file in plain form: fields without comma, quote, line feed or
    carriage return, three to a row, the fields of a row joined by commas
    and every row closed by a line feed. *)
Definition plainByte (c : ascii) : Prop :=
  c ≠ csv.comma ∧ c ≠ csv.quote ∧ c ≠ csv.LF ∧ c ≠ csv.CR.

Fixpoint plainField (f : string) : Prop :=
  match f with
  | "" => True
  | String c f' => plainByte c ∧ plainField f'
  end.

Definition plainRow (row : list string) : Prop :=
  ∃ a b c, row = [a; b; c] ∧ plainField a ∧ plainField b ∧ plainField c.

Definition renderRow (row : list string) : string :=
  joinWith "," row +:+ newline.

Definition renderRows (rows : list (list string)) : string :=
  foldr (λ row rest, renderRow row +:+ rest) "" rows.

(** Bytes that [readLines] keeps in the line it is reading. *)
Fixpoint inLine (s : string) : Prop :=
  match s with
  | "" => True
  | String c s' => (c ≠ csv.LF ∧ c ≠ csv.CR) ∧ inLine s'
  end.

(** ** Data of the package's tests, stand-ins for the collaborators *)

(** The schema of the package's tests. *)
Definition testSchema : list dBColumnSchema :=
  [ {| Name := "testCol1"; Width := "4"; DataType := "TEXT" |};
    {| Name := "testCol2"; Width := "42"; DataType := "TEXT" |};
    {| Name := "testCol3"; Width := "8"; DataType := "BOOLEAN" |};
    {| Name := "testCol4"; Width := "4"; DataType := "INTEGER" |} ].

(** The 1601-column schema of the tests: every column is named test. *)
Definition hugeSchema : list dBColumnSchema :=
  replicate 1601 {| Name := "test"; Width := "1"; DataType := "INTEGER" |}.

Definition testLoader : DataLoader :=
  {| Env := ""; DataBucket := "testDB"; SchemaBucket := "testSchemas" |}.

(** A TEXT column of the given width, as in the tests. *)
Definition textColumn (width : string) : dBColumnSchema :=
  {| Name := "testCol"; Width := width; DataType := "TEXT" |}.

(** The schema file of the test of [marshalTableSchema]: an empty line,
    the header with its quoted first field, three rows. *)
Definition testRawSchema : string :=
  newline +:+ dquote +:+ "column name" +:+ dquote +:+ ",width,datatype" +:+ newline
  +:+ "name,10,TEXT" +:+ newline
  +:+ "valid,1,BOOLEAN" +:+ newline
  +:+ "count,3,INTEGER" +:+ newline.

(** The schema that [testRawSchema] describes. *)
Definition testParsedSchema : list dBColumnSchema :=
  [ {| Name := "name"; Width := "10"; DataType := "TEXT" |};
    {| Name := "valid"; Width := "1"; DataType := "BOOLEAN" |};
    {| Name := "count"; Width := "3"; DataType := "INTEGER" |} ].

(** A schema file whose header and only row have two fields. *)
Definition twoFieldSchema : string :=
  "column name,width" +:+ newline +:+ "name,10" +:+ newline.

(** A schema file whose header and only row have one field. *)
Definition oneFieldSchema : string :=
  "column name" +:+ newline +:+ "name" +:+ newline.


(** A schema file with the header only. *)
Definition headerOnlySchema : string :=
  "column name,width,datatype" +:+ newline.

(** A file name as the trigger passes it. *)
Definition testFile : string := "testformat1_2015-06-28.txt".


Definition testCopy : string :=
  "COPY testformat1 FROM 's3://testDB/testformat1_2015-06-28.txt' IAM_ROLE 'arn:aws:iam::653026974230:role/data-loader-redshift-copy--us-west-2' FIXEDWIDTH 'name:10, valid:1, count:3';".

Definition testCalls : list event :=
  [ EvGetObject "testSchemas" "testformat1.csv";
    EvQuery tableExistsQuery ["testformat1"] ].

Definition testError : error := errorString "test_error".

(** A stand-in for the collaborators: the world records whether the table
    exists; the schema bucket serves [schemaFile] under every key, the
    warehouse answers the existence query from the world, every statement
    succeeds and the table exists afterwards. *)
Definition fakeCollaborators (schemaFile : string) : Collaborators bool := {|
  GetObjectWithContext := λ bucket key w, ((schemaFile, None), w);
  QueryContext := λ q args (w : bool), ((if w then [["t"]] else [], None), w);
  ExecContext := λ q w, (None, true)
|}.


(** The state of a run against [failingCollaborators] after the given calls. *)
Definition after (calls : list event) : state unit := Build_state () calls.

(** ** The Lambda handler ([functions/s3-upload/handler.go]) *)

(** A record of an [events.S3Event]; of its fields the handler reads
    [record.S3.Object.Key] only. *)
Record S3EventRecord : Type := {
  Key : string
}.

(** [Response]: the response object for a successful invocation. *)
Record Response : Type := {
  Success : bool
}.

Section Handler.

Context {World : Type} (C : Collaborators World).

(** The [for _, record := range s3Event.Records] loop of [handle], with the
    variable [err] it assigns. *)
Fixpoint handleLoop (d : DataLoader) (records : list S3EventRecord)
    (err : option error) : M World (option error) :=
  match records with
  | [] => mret err
  | record :: rest =>
      err ← LoadDataFileToRedshift C d (Key record);
      handleLoop d rest err
  end.

Definition handle (d : DataLoader) (records : list S3EventRecord)
    : M World (option Response * option error) :=
  err ← handleLoop d records None;
  match err with
  | Some e => mret (None, Some e)
  | None => mret (Some {| Success := true |}, None)
  end.

End Handler.

(** ** Start-up ([main], up to the call of [lambda.Start]) *)

(** [os.Getenv]: the value of the variable, empty when it is not set. *)
Definition Getenv (environ : gmap string string) (key : string) : string :=
  default "" (environ !! key).

(** What [main] panics with: a message, or an error value. *)
Inductive panicValue : Type :=
  | PanicString (msg : string)
  | PanicError (e : error).

(** The calls [main] makes before it starts the handler. *)
Inductive startupEvent : Type :=
  | EvNewSession
  | EvGetParameter (name : string) (withDecryption : bool)
  | EvOpen (driverName dataSourceName : string).

(** The services [main] sets itself up with: [session.NewSession], the
    parameter store ([ssmSvc.GetParameter], giving the parameter value) and
    [sql.Open]. *)
Record StartupCollaborators (World : Type) : Type := {
  NewSession : World → option error * World;
  GetParameter : string → bool → World → (string * option error) * World;
  Open : string → string → World → option error * World
}.
Arguments NewSession {World} _ _.
Arguments GetParameter {World} _ _ _ _.
Arguments Open {World} _ _ _ _.

(** What the handler closure is given: the fields of the [DataLoader] it
    builds on every invocation, and the data source name of the connection. *)
Record Setup : Type := {
  loader : DataLoader;
  dataSourceName : string
}.

Definition main {World : Type} (S : StartupCollaborators World)
    (environ : gmap string string) (w : World)
    : (panicValue + Setup) * (World * list startupEvent) :=
  (* sess = session.Must(session.NewSession()) *)
  let '(sessErr, w) := NewSession S w in
  let t := [EvNewSession] in
  match sessErr with
  | Some e => (inl (PanicError e), (w, t))
  | None =>
  let env := Getenv environ "ENVIRONMENT_NAME" in
  let dataBucket := Getenv environ "DATA_BUCKET" in
  let schemaBucket := Getenv environ "SCHEMA_BUCKET" in
  if decide (env = "") then (inl (PanicString "ENVIRONMENT_NAME undefined"), (w, t))
  else if decide (dataBucket = "") then (inl (PanicString "DATA_BUCKET undefined"), (w, t))
  else if decide (schemaBucket = "") then
    (inl (PanicString "SCHEMA_BUCKET undefined"), (w, t))
  else
  (* Fetch DB password *)
  let passwordName := "/data-loader/" +:+ env +:+ "/master-password" in
  let '((password, err), w) := GetParameter S passwordName true w in
  let t := t ++ [EvGetParameter passwordName true] in
  match err with
  | Some e => (inl (PanicError e), (w, t))
  | None =>
  (* Fetch cluster endpoint *)
  let endpointName := "/data-loader/" +:+ env +:+ "/cluster-endpoint" in
  let '((endpoint, err), w) := GetParameter S endpointName true w in
  let t := t ++ [EvGetParameter endpointName true] in
  match err with
  | Some e => (inl (PanicError e), (w, t))
  | None =>
  (* Establish DB connection *)
  let dsn :=
    "host=" +:+ endpoint +:+ " port=" +:+ pretty (5439 : Z) +:+ " user=" +:+ "admin"
    +:+ " password=" +:+ password +:+ " dbname=" +:+ ("data-loader-" +:+ env) in
  let '(err, w) := Open S "postgres" dsn w in
  let t := t ++ [EvOpen "postgres" dsn] in
  match err with
  | Some e => (inl (PanicError e), (w, t))
  | None =>
      (inr {| loader := {| Env := env; DataBucket := dataBucket;
                           SchemaBucket := schemaBucket |};
              dataSourceName := dsn |},
       (w, t))
  end end end end.

(** ** The ends of a run *)

Section RunEnd.

Context {World : Type} (C : Collaborators World).

(** The ways a run can go, by the step that ends it: the outcome, the
    final state and the statements executed. *)
Inductive runEnd (d : DataLoader) (fileName : string) (s0 : state World)
    : outcome (option error) → state World → list string → Prop :=
  | EndFetch e s1 :
      fetchTableSchema C d (targetTable fileName) s0 = (Ret ("", Some e), s1) →
      runEnd d fileName s0 (Ret (Some e)) s1 []
  | EndParsePanic rawSchema p s1 :
      fetchTableSchema C d (targetTable fileName) s0 = (Ret (rawSchema, None), s1) →
      marshalTableSchema rawSchema = Panic p →
      runEnd d fileName s0 (Panic p) s1 []
  | EndParse rawSchema cols e s1 :
      fetchTableSchema C d (targetTable fileName) s0 = (Ret (rawSchema, None), s1) →
      marshalTableSchema rawSchema = Ret (cols, Some e) →
      runEnd d fileName s0 (Ret (Some e)) s1 []
  | EndCheck rawSchema schema b e s1 s2 :
      fetchTableSchema C d (targetTable fileName) s0 = (Ret (rawSchema, None), s1) →
      marshalTableSchema rawSchema = Ret (schema, None) →
      checkIfRedShiftTableExists C d (targetTable fileName) s1 = (Ret (b, Some e), s2) →
      runEnd d fileName s0 (Ret (Some e)) s2 []
  | EndBuild rawSchema schema q e s1 s2 :
      fetchTableSchema C d (targetTable fileName) s0 = (Ret (rawSchema, None), s1) →
      marshalTableSchema rawSchema = Ret (schema, None) →
      checkIfRedShiftTableExists C d (targetTable fileName) s1
      = (Ret (false, None), s2) →
      buildCreateTableQuery d (targetTable fileName) schema = (q, Some e) →
      runEnd d fileName s0 (Ret (Some e)) s2 []
  | EndCreate rawSchema schema ddl e w3 s1 s2 :
      fetchTableSchema C d (targetTable fileName) s0 = (Ret (rawSchema, None), s1) →
      marshalTableSchema rawSchema = Ret (schema, None) →
      checkIfRedShiftTableExists C d (targetTable fileName) s1
      = (Ret (false, None), s2) →
      buildCreateTableQuery d (targetTable fileName) schema = (ddl, None) →
      ExecContext C ddl (world s2) = (Some e, w3) →
      runEnd d fileName s0 (Ret (Some e))
        (Build_state w3 (trace s2 ++ [EvExec ddl])) [ddl]
  | EndCopyCreated rawSchema schema ddl err w3 w4 s1 s2 :
      fetchTableSchema C d (targetTable fileName) s0 = (Ret (rawSchema, None), s1) →
      marshalTableSchema rawSchema = Ret (schema, None) →
      checkIfRedShiftTableExists C d (targetTable fileName) s1
      = (Ret (false, None), s2) →
      buildCreateTableQuery d (targetTable fileName) schema = (ddl, None) →
      ExecContext C ddl (world s2) = (None, w3) →
      ExecContext C (buildCopyFromS3Query d schema (targetTable fileName) fileName) w3
      = (err, w4) →
      runEnd d fileName s0 (Ret err)
        (Build_state w4
           (trace s2
            ++ [EvExec ddl;
                EvExec (buildCopyFromS3Query d schema (targetTable fileName) fileName)]))
        [ddl; buildCopyFromS3Query d schema (targetTable fileName) fileName]
  | EndCopy rawSchema schema err w3 s1 s2 :
      fetchTableSchema C d (targetTable fileName) s0 = (Ret (rawSchema, None), s1) →
      marshalTableSchema rawSchema = Ret (schema, None) →
      checkIfRedShiftTableExists C d (targetTable fileName) s1
      = (Ret (true, None), s2) →
      ExecContext C (buildCopyFromS3Query d schema (targetTable fileName) fileName)
        (world s2) = (err, w3) →
      runEnd d fileName s0 (Ret err)
        (Build_state w3
           (trace s2
            ++ [EvExec (buildCopyFromS3Query d schema (targetTable fileName) fileName)]))
        [buildCopyFromS3Query d schema (targetTable fileName) fileName].

End RunEnd.

(** ** Further notions for the properties below *)

(** A column with its width blanked unless it is a TEXT column. *)
Definition blankWidth (c : dBColumnSchema) : dBColumnSchema :=
  if decide (DataType c = "TEXT") then c
  else {| Name := Name c; Width := ""; DataType := DataType c |}.

(** The response of [handle] for the outcome of the last run. *)
Definition respond {World : Type} (o : outcome (option error) * state World)
    : outcome (option Response * option error) * state World :=
  match o with
  | (Ret None, s) => (Ret (Some {| Success := true |}, None), s)
  | (Ret (Some e), s) => (Ret (None, Some e), s)
  | (Panic p, s) => (Panic p, s)
  end.

(** The byte [c] occurs in [s]. *)
Fixpoint occurs (c : ascii) (s : string) : Prop :=
  match s with
  | "" => False
  | String x s' => x = c ∨ occurs c s'
  end.

(** The calls of one run that are [GetObject] calls. *)
Definition getObjects (t : list event) : list (string * string) :=
  omap (λ e, match e with EvGetObject b k => Some (b, k) | _ => None end) t.

(** Collaborators for a schema bucket that lacks the schema of one table:
    fetching the key [missingKey] fails, every other key gives
    [schemaFile]; the table exists and every statement succeeds. *)
Definition missingSchemaCollaborators (schemaFile missingKey : string)
    : Collaborators unit := {|
  GetObjectWithContext := λ bucket key w,
    (if decide (key = missingKey) then ("", Some testError) else (schemaFile, None), w);
  QueryContext := λ q args w, (([["t"]], None), w);
  ExecContext := λ q w, (None, w)
|}.

(** A parameter store and driver that always answer, for [main]. *)
Definition testStartup : StartupCollaborators unit := {|
  NewSession := λ w, (None, w);
  GetParameter := λ name withDecryption w,
    (if decide (name = "/data-loader/dev/master-password") then ("secret", None)
     else ("cluster.example", None), w);
  Open := λ driverName dataSourceName w, (None, w)
|}.

Definition testEnviron : gmap string string :=
  {[ "ENVIRONMENT_NAME" := "dev"; "DATA_BUCKET" := "data"; "SCHEMA_BUCKET" := "schemas" ]}.

(** * Theorems *)

#[local] Set Warnings "-clear-no-such-hyp".

Example Atoi_256 : strconv.Atoi "256" = (256, None).
Proof. reflexivity. Qed.
Example Atoi_neg : strconv.Atoi "-3" = (-3, None).
Proof. reflexivity. Qed.
Example Atoi_a : strconv.Atoi "a" = (0, Some (NumError "Atoi" "a" ErrSyntax)).
Proof. reflexivity. Qed.
Example Atoi_big :
  strconv.Atoi "9223372036854775808"
  = (9223372036854775807, Some (NumError "Atoi" "9223372036854775808" ErrRange)).
Proof. reflexivity. Qed.
Example Atoi_min :
  strconv.Atoi "-9223372036854775808" = (-9223372036854775808, None).
Proof. reflexivity. Qed.

(** ** Strings *)

Lemma app_assoc_s (a b c : string) : (a +:+ b) +:+ c = a +:+ (b +:+ c).
Proof.
  induction a as [|x a IH]; [done|].
  change (String x ((a +:+ b) +:+ c) = String x (a +:+ b +:+ c)). by rewrite IH.
Qed.

Lemma app_nil_r_s (a : string) : a +:+ "" = a.
Proof.
  induction a as [|x a IH]; [done|].
  change (String x (a +:+ "") = String x a). by rewrite IH.
Qed.

Lemma writtenWith_join sep prefix items :
  writtenWith sep prefix items
  = match items with [] => "" | _ => prefix +:+ joinWith sep items end.
Proof.
  revert prefix. induction items as [|x rest IH]; intros prefix; [done|].
  cbn [writtenWith]. rewrite IH. destruct rest as [|y rest].
  - by rewrite app_nil_r_s.
  - done.
Qed.

Lemma writtenWith_first sep items :
  writtenWith sep "" items = joinWith sep items.
Proof. rewrite writtenWith_join. by destruct items. Qed.

(** ** [strconv.Atoi] *)

Lemma Atoi_error s n e :
  strconv.Atoi s = (n, Some e) → ∃ k, e = NumError "Atoi" s k.
Proof.
  unfold strconv.Atoi, strconv.syntaxError, strconv.rangeError.
  repeat case_match; intros [= <- <-]; eauto.
Qed.

Lemma byte_val_range c : 0 ≤ strconv.byte_val c < 256.
Proof.
  unfold strconv.byte_val. pose proof (nat_ascii_bounded c). lia.
Qed.

Lemma atoi_fast_nondigit s n :
  allDigits s = false → strconv.atoi_fast s n = None.
Proof.
  revert n. induction s as [|c s IH]; intros n; [done|].
  simpl. unfold isDigit. pose proof (byte_val_range c) as Hc.
  destruct (9 <? (strconv.byte_val c - 48) `mod` 256) eqn:Hd; [done|].
  apply Z.ltb_ge in Hd. intros Hs. apply IH.
  destruct (allDigits s); [|done]. rewrite andb_true_r in Hs.
  exfalso. apply andb_false_iff in Hs as [Hs | Hs].
  - apply Z.leb_gt in Hs.
    replace ((strconv.byte_val c - 48) `mod` 256) with (strconv.byte_val c + 208) in Hd.
    + lia.
    + apply (Z.mod_unique _ _ (-1)); lia.
  - apply Z.leb_gt in Hs. rewrite Z.mod_small in Hd; lia.
Qed.

Lemma parseUint_loop_nondigit s n :
  allDigits s = false → ∃ k, strconv.parseUint_loop s n = inr k.
Proof.
  revert n. induction s as [|c s IH]; intros n; [done|].
  simpl. unfold isDigit.
  destruct ((48 <=? strconv.byte_val c) && (strconv.byte_val c <=? 57)); [|by eauto].
  simpl. intros Hs. repeat case_match; eauto.
Qed.

(** A width that is not numeric makes [strconv.Atoi] return a
    [*strconv.NumError]. *)
Lemma Atoi_nonnumeric s :
  numeric s = false → ∃ n k, strconv.Atoi s = (n, Some (NumError "Atoi" s k)).
Proof.
  intros Hs. unfold strconv.Atoi.
  destruct ((0 <? String.length s)%nat && (String.length s <? 19)%nat).
  - destruct s as [|c s']; [by eauto|].
    unfold numeric in Hs. lazy beta iota zeta.
    destruct (bool_decide (c = "-"%char) || bool_decide (c = "+"%char)) eqn:Hsign.
    + destruct s' as [|c' s'']; [by eauto|].
      rewrite (atoi_fast_nondigit _ 0 Hs). by eauto.
    + rewrite (atoi_fast_nondigit _ 0 Hs). by eauto.
  - unfold strconv.ParseInt. destruct s as [|c s']; [by eauto|].
    unfold numeric in Hs. rewrite orb_comm in Hs. lazy beta iota zeta.
    destruct (bool_decide (c = "+"%char) || bool_decide (c = "-"%char)) eqn:Hsign.
    + destruct s' as [|c' s'']; [by eauto|].
      unfold strconv.ParseUint.
      destruct (parseUint_loop_nondigit (String c' s'') 0 Hs) as [k ->].
      destruct k; eauto.
    + unfold strconv.ParseUint.
      destruct (parseUint_loop_nondigit (String c s') 0 Hs) as [k ->].
      destruct k; eauto.
Qed.

(** ** The column switch *)

Lemma renderedDataType_valid c :
  validColumn c → renderedDataType c = (specType c, None).
Proof.
  unfold validColumn, renderedDataType, specType.
  intros [[HT (n & Hn & Hle)] | [HI | HB]].
  - repeat case_decide; try congruence. rewrite Hn.
    apply Z.leb_le in Hle. by rewrite Hle.
  - rewrite HI. by repeat case_decide.
  - rewrite HB. by repeat case_decide.
Qed.

(** ** The loop of [buildCreateTableQuery] *)

(** Columns that pass every check are written and remembered, and the loop
    goes on with the rest. *)
Lemma createTableLoop_valid pre rest sb prefix (set : gset string) :
  NoDup (Name <$> pre) →
  (∀ c, c ∈ pre → Name c ∉ set) →
  Forall validColumn pre →
  createTableLoop (pre ++ rest) sb prefix set
  = createTableLoop rest
      (sb +:+ writtenWith "," prefix (columnClause <$> pre))
      (match pre with [] => prefix | _ => "," end)
      (list_to_set (Name <$> pre) ∪ set).
Proof.
  revert sb prefix set.
  induction pre as [|c pre IH]; intros sb prefix set Hnd Hfresh Hvalid.
  - simpl. rewrite app_nil_r_s. f_equal. set_solver.
  - rewrite fmap_cons in Hnd. apply NoDup_cons in Hnd as [Hc Hnd].
    apply Forall_cons in Hvalid as [Hv Hvalid].
    simpl. rewrite decide_False by (apply Hfresh; set_solver).
    rewrite (renderedDataType_valid c Hv).
    rewrite IH; [| done | | done].
    + f_equal.
      * unfold columnClause. by rewrite !app_assoc_s.
      * by destruct pre.
      * set_solver.
    + intros c' Hc'. apply not_elem_of_union. split; [|apply Hfresh; set_solver].
      apply not_elem_of_singleton. intros Heq. apply Hc. rewrite <- Heq.
      by apply list_elem_of_fmap_2.
Qed.

(** The errors the column switch can return. *)
Lemma renderedDataType_error c r e :
  renderedDataType c = (r, Some e) →
  (∃ k, e = NumError "Atoi" (Width c) k)
  ∨ e = WidthExceededError (Width c)
  ∨ e = UnsupportedTypeError (DataType c).
Proof.
  unfold renderedDataType. repeat case_decide.
  - destruct (strconv.Atoi (Width c)) as [n [e'|]] eqn:HA.
    + intros [= <- <-]. left. by eapply Atoi_error.
    + case_match; intros [= <- <-]. by right; left.
  - intros [=].
  - intros [=].
  - intros [= <- <-]. by right; right.
Qed.

(** [createTableLoop] returns no error on the column count. *)
Lemma createTableLoop_error cols sb prefix (set : gset string) q e n :
  createTableLoop cols sb prefix set = (q, Some e) → e ≠ InvalidSchemaError n.
Proof.
  revert sb prefix set. induction cols as [|c cols IH]; intros sb prefix set.
  - intros [=].
  - simpl. case_decide; [intros [= <- <-]; discriminate|].
    destruct (renderedDataType c) as [r [e'|]] eqn:HR.
    + intros [= <- <-].
      apply renderedDataType_error in HR as [[k ->] | [-> | ->]]; discriminate.
    + apply IH.
Qed.

Lemma renderedDataType_unsupported c :
  DataType c ≠ "TEXT" → DataType c ≠ "INTEGER" → DataType c ≠ "BOOLEAN" →
  renderedDataType c = ("", Some (UnsupportedTypeError (DataType c))).
Proof. intros. unfold renderedDataType. by repeat case_decide. Qed.

Lemma renderedDataType_parse_error c n e :
  DataType c = "TEXT" → strconv.Atoi (Width c) = (n, Some e) →
  renderedDataType c = ("", Some e).
Proof.
  intros HT HA. unfold renderedDataType. rewrite decide_True by done.
  by rewrite HA.
Qed.

Lemma renderedDataType_too_wide c n :
  DataType c = "TEXT" → strconv.Atoi (Width c) = (n, None) → 256 < n →
  renderedDataType c = ("", Some (WidthExceededError (Width c))).
Proof.
  intros HT HA Hn. unfold renderedDataType. rewrite decide_True by done.
  rewrite HA. apply Z.leb_gt in Hn. by rewrite Hn.
Qed.

Lemma renderedDataType_text c n :
  DataType c = "TEXT" → strconv.Atoi (Width c) = (n, None) → n ≤ 256 →
  renderedDataType c = ("VARCHAR(" +:+ Width c +:+ ")", None).
Proof.
  intros HT HA Hn. unfold renderedDataType. rewrite decide_True by done.
  rewrite HA. apply Z.leb_le in Hn. by rewrite Hn.
Qed.

(** With the count in range, [buildCreateTableQuery] reaches the first
    column that follows a prefix of accepted columns. *)
Lemma buildCreateTableQuery_reach d tableName pre rest :
  (1 ≤ length (pre ++ rest) ≤ 1600)%nat →
  NoDup (Name <$> pre) →
  Forall validColumn pre →
  buildCreateTableQuery d tableName (pre ++ rest)
  = createTableLoop rest
      (("CREATE TABLE " +:+ tableName +:+ "(") +:+ writtenWith "," "" (columnClause <$> pre))
      (match pre with [] => "" | _ => "," end)
      (list_to_set (Name <$> pre) ∪ ∅).
Proof.
  intros [Hlo Hhi] Hnd Hvalid. unfold buildCreateTableQuery.
  replace (length (pre ++ rest) =? 0)%nat with false
    by (symmetry; apply Nat.eqb_neq; lia).
  replace (1600 <? length (pre ++ rest))%nat with false
    by (symmetry; apply Nat.ltb_ge; lia).
  simpl. by rewrite createTableLoop_valid; [| | set_solver |].
Qed.

Lemma length_middle {A} (pre : list A) c post :
  (1 ≤ length (pre ++ c :: post))%nat.
Proof. rewrite length_app. simpl. lia. Qed.

(** Without a repeated name the loop returns no duplicate-column error. *)
Lemma createTableLoop_no_duplicate cols sb prefix (set : gset string) q e name :
  NoDup (Name <$> cols) →
  (∀ c, c ∈ cols → Name c ∉ set) →
  createTableLoop cols sb prefix set = (q, Some e) →
  e ≠ DuplicateColumnError name.
Proof.
  revert sb prefix set. induction cols as [|c cols IH]; intros sb prefix set Hnd Hfresh.
  - intros [=].
  - rewrite fmap_cons in Hnd. apply NoDup_cons in Hnd as [Hc Hnd].
    simpl. rewrite decide_False by (apply Hfresh; set_solver).
    destruct (renderedDataType c) as [r [e'|]] eqn:HR.
    + intros [= <- <-].
      apply renderedDataType_error in HR as [[k ->] | [-> | ->]]; discriminate.
    + apply IH; [done|].
      intros c' Hc'. apply not_elem_of_union. split; [|apply Hfresh; set_solver].
      apply not_elem_of_singleton. intros Heq. apply Hc. rewrite <- Heq.
      by apply list_elem_of_fmap_2.
Qed.

(** A schema with a repeated name splits at the first column whose name
    occurred before. *)
Lemma first_duplicate (schema : list dBColumnSchema) :
  ¬ NoDup (Name <$> schema) →
  ∃ (pre : list dBColumnSchema) c post, schema = pre ++ c :: post
    ∧ NoDup (Name <$> pre) ∧ Name c ∈ Name <$> pre.
Proof.
  induction schema as [|c init IH] using rev_ind; intros Hdup.
  - exfalso. apply Hdup. constructor.
  - destruct (decide (NoDup (Name <$> init))) as [Hnd | Hnd].
    + exists init, c, []. split; [done|]. split; [done|].
      destruct (decide (Name c ∈ Name <$> init)) as [Hin | Hnin]; [done|].
      exfalso. apply Hdup. rewrite fmap_app. apply NoDup_app.
      split; [done|]. split; [|apply NoDup_singleton].
      intros x Hx Hx'. apply list_elem_of_singleton in Hx'. by subst.
    + destruct (IH Hnd) as (pre & c' & post & -> & Hpre & Hin).
      exists pre, c', (post ++ [c]). by rewrite <- app_assoc.
Qed.

(** ** Claims about [buildCreateTableQuery] *)

(** A schema the validator accepts builds to the statement of the
    specification. *)
Lemma buildCreateTableQuery_accepts d tableName schema :
  (1 ≤ length schema ≤ 1600)%nat →
  NoDup (Name <$> schema) →
  Forall validColumn schema →
  buildCreateTableQuery d tableName schema = (specCreateTable tableName schema, None).
Proof.
  intros Hlen Hnd Hvalid.
  rewrite <- (app_nil_r schema) at 1.
  rewrite buildCreateTableQuery_reach by (by rewrite ?app_nil_r).
  simpl. rewrite writtenWith_first. unfold specCreateTable.
  by rewrite !app_assoc_s.
Qed.

(** C1. For every schema of 1 to 1600 columns with pairwise distinct names
    in which every column has type TEXT, INTEGER or BOOLEAN and every TEXT
    column has a width that [strconv.Atoi] parses to an integer of at most
    256, [buildCreateTableQuery] returns no error and exactly the statement
    CREATE TABLE tableName( followed by the column clauses in schema order
    (a space, the name, a space, VARCHAR(Width) or INTEGER or BOOLEAN),
    separated by commas, closed by ); and there are as many clauses as
    columns. *)
Theorem buildCreateTableQuery_valid d tableName schema :
  (1 ≤ length schema ≤ 1600)%nat →
  NoDup (Name <$> schema) →
  Forall validColumn schema →
  buildCreateTableQuery d tableName schema = (specCreateTable tableName schema, None)
  ∧ length (columnClause <$> schema) = length schema.
Proof.
  intros Hlen Hnd Hvalid. split; [|by rewrite length_fmap].
  by apply buildCreateTableQuery_accepts.
Qed.

Lemma testSchema_valid : Forall validColumn testSchema.
Proof.
  unfold testSchema. rewrite !Forall_cons, Forall_nil. split_and!; [| | | |done].
  - left. split; [done|]. exists 4. by vm_compute.
  - left. split; [done|]. exists 42. by vm_compute.
  - right. by right.
  - right. by left.
Qed.

Lemma buildCreateTableQuery_valid_witness :
  buildCreateTableQuery testLoader "testTable" testSchema
  = ("CREATE TABLE testTable( testCol1 VARCHAR(4), testCol2 VARCHAR(42), testCol3 BOOLEAN, testCol4 INTEGER);",
     None).
Proof.
  refine (proj1 (buildCreateTableQuery_valid testLoader "testTable" testSchema _ _ _)).
  - simpl. lia.
  - apply (bool_decide_unpack _). vm_compute. exact I.
  - exact testSchema_valid.
Defined.

(** C4. [buildCreateTableQuery] returns the column-count error exactly when
    the schema has no column or more than 1600, whatever the columns are
    (no per-column check runs first), and the message gives the count: 0
    for the empty schema, 1601 for the 1601-column schema of the tests. *)
Theorem buildCreateTableQuery_count d tableName schema :
  (length schema = 0%nat ∨ (1600 < length schema)%nat →
     buildCreateTableQuery d tableName schema
     = ("", Some (InvalidSchemaError (length schema))))
  ∧ ((1 ≤ length schema ≤ 1600)%nat →
     ∀ n, (buildCreateTableQuery d tableName schema).2 ≠ Some (InvalidSchemaError n))
  ∧ InvalidSchemaError 0
    = errorString "invalid number of columns defined in expectedSchema: 0"
  ∧ InvalidSchemaError 1601
    = errorString "invalid number of columns defined in expectedSchema: 1601".
Proof.
  split; [|split; [|split; by vm_compute]].
  - intros Hbad. unfold buildCreateTableQuery.
    destruct Hbad as [H0 | Hbig].
    + by rewrite H0.
    + replace (1600 <? length schema)%nat with true
        by (symmetry; apply Nat.ltb_lt; lia).
      by rewrite orb_true_r.
  - intros [Hlo Hhi] n. unfold buildCreateTableQuery.
    replace (length schema =? 0)%nat with false
      by (symmetry; apply Nat.eqb_neq; lia).
    replace (1600 <? length schema)%nat with false
      by (symmetry; apply Nat.ltb_ge; lia).
    simpl.
    destruct (createTableLoop _ _ _ _) as [q [e|]] eqn:HL; simpl; [|done].
    intros [= ->]. by eapply createTableLoop_error.
Qed.

Lemma buildCreateTableQuery_count_witness :
  buildCreateTableQuery testLoader "testTable" []
  = ("", Some (errorString "invalid number of columns defined in expectedSchema: 0"))
  ∧ buildCreateTableQuery testLoader "testTable" hugeSchema
    = ("", Some (errorString "invalid number of columns defined in expectedSchema: 1601"))
  ∧ ∀ n, (buildCreateTableQuery testLoader "testTable" testSchema).2
         ≠ Some (InvalidSchemaError n).
Proof.
  split; [|split].
  - exact (proj1 (buildCreateTableQuery_count testLoader "testTable" []) (or_introl eq_refl)).
  - refine (proj1 (buildCreateTableQuery_count testLoader "testTable" hugeSchema) (or_intror _)).
    vm_compute. lia.
  - refine (proj1 (proj2 (buildCreateTableQuery_count testLoader "testTable" testSchema)) _).
    simpl. lia.
Defined.

(** C5, as the code has it. In a schema of at most 1600 columns, let a
    column carry the name of an earlier one, the columns before it having
    distinct names, supported types and, for TEXT, widths parsing to at most
    256: [buildCreateTableQuery] returns the duplicate-column error naming
    it, wherever the column stands. Every schema with two equal names
    splits that way at its first repeated name. Names are compared byte for
    byte: a schema whose names are pairwise distinct strings never gets the
    duplicate-column error, so testCol and testcol are two columns. *)
Theorem buildCreateTableQuery_duplicate d tableName :
  (∀ (pre : list dBColumnSchema) c post,
     (length (pre ++ c :: post) ≤ 1600)%nat →
     NoDup (Name <$> pre) →
     Forall validColumn pre →
     Name c ∈ Name <$> pre →
     buildCreateTableQuery d tableName (pre ++ c :: post)
     = ("", Some (DuplicateColumnError (Name c))))
  ∧ (∀ schema : list dBColumnSchema,
       ¬ NoDup (Name <$> schema) →
       ∃ (pre : list dBColumnSchema) c post, schema = pre ++ c :: post
         ∧ NoDup (Name <$> pre) ∧ Name c ∈ Name <$> pre)
  ∧ (∀ schema name,
       NoDup (Name <$> schema) →
       (buildCreateTableQuery d tableName schema).2 ≠ Some (DuplicateColumnError name))
  ∧ buildCreateTableQuery d "testTable"
      [ {| Name := "testCol"; Width := "4"; DataType := "TEXT" |};
        {| Name := "testcol"; Width := "4"; DataType := "TEXT" |} ]
    = ("CREATE TABLE testTable( testCol VARCHAR(4), testcol VARCHAR(4));", None).
Proof.
  split; [|split; [|split]].
  - intros pre c post Hlen Hnd Hvalid Hin.
    rewrite buildCreateTableQuery_reach; [| | done | done].
    + simpl. rewrite decide_True; [done|]. set_solver.
    + split; [apply length_middle | done].
  - apply first_duplicate.
  - intros schema name Hnd. unfold buildCreateTableQuery.
    case_match; [simpl; intros [=]|].
    destruct (createTableLoop _ _ _ _) as [q [e|]] eqn:HL; simpl; [|done].
    intros [= ->]. eapply createTableLoop_no_duplicate in HL; [done | done |].
    set_solver.
  - by vm_compute.
Qed.

Lemma buildCreateTableQuery_duplicate_witness :
  buildCreateTableQuery testLoader "testTable"
    [ {| Name := "testCol"; Width := "4"; DataType := "TEXT" |};
      {| Name := "testCol"; Width := "4"; DataType := "TEXT" |} ]
  = ("", Some (errorString "duplicate column name passed in expectedSchema: testCol"))
  ∧ buildCreateTableQuery testLoader "testTable"
      (testSchema ++ {| Name := "testCol2"; Width := "a"; DataType := "BAD_TYPE" |} :: testSchema)
    = ("", Some (errorString "duplicate column name passed in expectedSchema: testCol2"))
  ∧ ∀ name, (buildCreateTableQuery testLoader "testTable" testSchema).2
            ≠ Some (DuplicateColumnError name).
Proof.
  split; [|split].
  - refine (proj1 (buildCreateTableQuery_duplicate testLoader "testTable")
              [ {| Name := "testCol"; Width := "4"; DataType := "TEXT" |} ]
              {| Name := "testCol"; Width := "4"; DataType := "TEXT" |} [] _ _ _ _).
    + simpl. lia.
    + apply (bool_decide_unpack _). vm_compute. exact I.
    + apply Forall_singleton. left. split; [reflexivity|]. exists 4. by vm_compute.
    + apply (bool_decide_unpack _). vm_compute. exact I.
  - refine (proj1 (buildCreateTableQuery_duplicate testLoader "testTable")
              testSchema
              {| Name := "testCol2"; Width := "a"; DataType := "BAD_TYPE" |}
              testSchema _ _ _ _).
    + simpl. lia.
    + apply (bool_decide_unpack _). vm_compute. exact I.
    + exact testSchema_valid.
    + apply (bool_decide_unpack _). vm_compute. exact I.
  - intros name.
    refine (proj1 (proj2 (proj2 (buildCreateTableQuery_duplicate testLoader "testTable")))
              testSchema name _).
    apply (bool_decide_unpack _). vm_compute. exact I.
Defined.

(** C5 as stated fails: a repeated name is not reported when an earlier
    check fails first. The second column repeats the name of the first, but
    the first has an unknown type; and the 1601-column schema of the tests
    repeats one name throughout, but has too many columns. *)
Lemma duplicate_masked_by_earlier_failure :
  buildCreateTableQuery testLoader "testTable"
    [ {| Name := "testCol"; Width := "4"; DataType := "BAD_TYPE" |};
      {| Name := "testCol"; Width := "4"; DataType := "TEXT" |} ]
  = ("", Some (errorString "unknown data type passed BAD_TYPE"))
  ∧ buildCreateTableQuery testLoader "testTable" hugeSchema
    = ("", Some (errorString "invalid number of columns defined in expectedSchema: 1601"))
  ∧ ¬ (∀ d tableName (schema : list dBColumnSchema) (i j : nat) ci cj,
         i ≠ j → schema !! i = Some ci → schema !! j = Some cj →
         Name ci = Name cj →
         (buildCreateTableQuery d tableName schema).2
         = Some (DuplicateColumnError (Name ci))).
Proof.
  split; [by vm_compute|]. split; [by vm_compute|].
  intros H.
  specialize (H testLoader "testTable"
    [ {| Name := "testCol"; Width := "4"; DataType := "BAD_TYPE" |};
      {| Name := "testCol"; Width := "4"; DataType := "TEXT" |} ]
    0%nat 1%nat _ _ ltac:(lia) eq_refl eq_refl eq_refl).
  vm_compute in H. discriminate H.
Qed.

(** C6. Columns are checked in schema order and the first failure is the
    result. For the first column [c] that follows accepted columns (count
    in range, names distinct so far): an unknown type gives the
    unsupported-type error naming the type; a TEXT width that is not
    numeric gives a [*strconv.NumError], and any error of [strconv.Atoi] is
    returned as it is; a TEXT width that parses to more than 256 gives the
    width error; a TEXT width that parses to at most 256 (256 as well) is
    accepted. *)
Theorem buildCreateTableQuery_column_errors d tableName pre c post :
  (length (pre ++ c :: post) ≤ 1600)%nat →
  NoDup (Name <$> (pre ++ [c])) →
  Forall validColumn pre →
  (DataType c ≠ "TEXT" → DataType c ≠ "INTEGER" → DataType c ≠ "BOOLEAN" →
     buildCreateTableQuery d tableName (pre ++ c :: post)
     = ("", Some (UnsupportedTypeError (DataType c))))
  ∧ (DataType c = "TEXT" → numeric (Width c) = false →
     ∃ k, buildCreateTableQuery d tableName (pre ++ c :: post)
          = ("", Some (NumError "Atoi" (Width c) k)))
  ∧ (DataType c = "TEXT" → ∀ n e, strconv.Atoi (Width c) = (n, Some e) →
     buildCreateTableQuery d tableName (pre ++ c :: post) = ("", Some e))
  ∧ (DataType c = "TEXT" → ∀ n, strconv.Atoi (Width c) = (n, None) → 256 < n →
     buildCreateTableQuery d tableName (pre ++ c :: post)
     = ("", Some (WidthExceededError (Width c))))
  ∧ (DataType c = "TEXT" → ∀ n, strconv.Atoi (Width c) = (n, None) → n ≤ 256 →
     buildCreateTableQuery d tableName (pre ++ [c])
     = (specCreateTable tableName (pre ++ [c]), None)).
Proof.
  intros Hlen Hnd Hvalid.
  assert (Hpre : NoDup (Name <$> pre) ∧ Name c ∉ Name <$> pre).
  { rewrite fmap_app in Hnd. apply NoDup_app in Hnd as (Hpre & Hc & _).
    split; [done|]. intros Hin. apply (Hc _ Hin). set_solver. }
  destruct Hpre as [Hpre Hc].
  assert (Hreach :
    ∀ e, (renderedDataType c).2 = Some e →
         buildCreateTableQuery d tableName (pre ++ c :: post) = ("", Some e)).
  { intros e He.
    rewrite buildCreateTableQuery_reach; [| | done | done].
    - simpl. rewrite decide_False by set_solver.
      destruct (renderedDataType c) as [r o]. simpl in He. by subst o.
    - split; [apply length_middle | done]. }
  split; [|split; [|split; [|split]]].
  - intros H1 H2 H3. apply Hreach. by rewrite renderedDataType_unsupported.
  - intros HT Hnum. destruct (Atoi_nonnumeric _ Hnum) as (n & k & HA).
    exists k. apply Hreach. by rewrite (renderedDataType_parse_error _ _ _ HT HA).
  - intros HT n e HA. apply Hreach.
    by rewrite (renderedDataType_parse_error _ _ _ HT HA).
  - intros HT n HA Hn. apply Hreach.
    by rewrite (renderedDataType_too_wide _ _ HT HA Hn).
  - intros HT n HA Hn.
    apply buildCreateTableQuery_accepts.
    + rewrite length_app in *. simpl in *. lia.
    + done.
    + apply Forall_app. split; [done|]. apply Forall_singleton.
      left. split; [done|]. by exists n.
Qed.

Lemma buildCreateTableQuery_column_errors_witness :
  buildCreateTableQuery testLoader "testTable"
    [ {| Name := "testCol"; Width := "4"; DataType := "BAD_TYPE" |} ]
  = ("", Some (errorString "unknown data type passed BAD_TYPE"))
  ∧ buildCreateTableQuery testLoader "testTable" [textColumn "a"]
    = ("", Some (NumError "Atoi" "a" ErrSyntax))
  ∧ buildCreateTableQuery testLoader "testTable" [textColumn "257"]
    = ("", Some (errorString "passed column width 257 is larger then TEXT field allows"))
  ∧ buildCreateTableQuery testLoader "testTable" [textColumn "256"]
    = ("CREATE TABLE testTable( testCol VARCHAR(256));", None).
Proof.
  assert (Hlen : ∀ c : dBColumnSchema, (length ([] ++ [c]) ≤ 1600)%nat)
    by (intros; simpl; lia).
  assert (Hnd : ∀ c : dBColumnSchema, NoDup (Name <$> ([] ++ [c])))
    by (intros; apply NoDup_singleton).
  split; [|split; [|split]].
  - refine (proj1 (buildCreateTableQuery_column_errors testLoader "testTable" []
              {| Name := "testCol"; Width := "4"; DataType := "BAD_TYPE" |} []
              (Hlen _) (Hnd _) (Forall_nil_2 _)) _ _ _); discriminate.
  - refine (proj1 (proj2 (proj2
              (buildCreateTableQuery_column_errors testLoader "testTable" []
                 (textColumn "a") [] (Hlen _) (Hnd _) (Forall_nil_2 _))))
              eq_refl 0 _ _).
    by vm_compute.
  - refine (proj1 (proj2 (proj2 (proj2
              (buildCreateTableQuery_column_errors testLoader "testTable" []
                 (textColumn "257") [] (Hlen _) (Hnd _) (Forall_nil_2 _)))))
              eq_refl 257 _ _).
    + by vm_compute.
    + lia.
  - refine (proj2 (proj2 (proj2 (proj2
              (buildCreateTableQuery_column_errors testLoader "testTable" []
                 (textColumn "256") [] (Hlen _) (Hnd _) (Forall_nil_2 _)))))
              eq_refl 256 _ _).
    + by vm_compute.
    + lia.
Defined.

(** C10. The width check has no lower bound. For a TEXT column whose width
    [strconv.Atoi] parses to [n], the column switch returns an error if and
    only if [n] exceeds 256; for [n] at most 256, zero and negative values
    as well, the column is rendered VARCHAR(Width) with the width string as
    it was given, and a schema of that one column builds. *)
Theorem textWidth_no_lower_bound c n :
  DataType c = "TEXT" →
  strconv.Atoi (Width c) = (n, None) →
  ((renderedDataType c).2 ≠ None ↔ 256 < n)
  ∧ (256 < n → renderedDataType c = ("", Some (WidthExceededError (Width c))))
  ∧ (n ≤ 256 →
     renderedDataType c = ("VARCHAR(" +:+ Width c +:+ ")", None)
     ∧ ∀ d tableName,
         buildCreateTableQuery d tableName [c]
         = ("CREATE TABLE " +:+ tableName +:+ "( " +:+ Name c
            +:+ " VARCHAR(" +:+ Width c +:+ "));", None)).
Proof.
  intros HT HA. split; [|split].
  - destruct (Z_le_gt_dec n 256) as [Hle | Hgt].
    + rewrite (renderedDataType_text _ _ HT HA Hle). simpl. split; [done | lia].
    + rewrite (renderedDataType_too_wide _ _ HT HA) by lia. simpl.
      split; [lia | done].
  - intros Hn. by apply (renderedDataType_too_wide _ n).
  - intros Hn. split; [by apply (renderedDataType_text _ n)|].
    intros d tableName.
    rewrite (buildCreateTableQuery_accepts d tableName [c] ltac:(simpl; lia)
      (NoDup_singleton _) (proj2 (Forall_singleton _ _)
         (or_introl (conj HT (ex_intro _ n (conj HA Hn)))))).
    unfold specCreateTable, joinWith, columnClause, specType. simpl.
    rewrite decide_True by done. by rewrite !app_assoc_s.
Qed.

Lemma textWidth_no_lower_bound_witness :
  buildCreateTableQuery testLoader "testTable" [textColumn "0"]
  = ("CREATE TABLE testTable( testCol VARCHAR(0));", None)
  ∧ buildCreateTableQuery testLoader "testTable" [textColumn "-3"]
    = ("CREATE TABLE testTable( testCol VARCHAR(-3));", None)
  ∧ renderedDataType (textColumn "257")
    = ("", Some (WidthExceededError "257")).
Proof.
  split; [|split].
  - refine (proj2 (proj2 (proj2 (textWidth_no_lower_bound (textColumn "0") 0 eq_refl _)) _)
              testLoader "testTable"); [by vm_compute | lia].
  - refine (proj2 (proj2 (proj2 (textWidth_no_lower_bound (textColumn "-3") (-3) eq_refl _)) _)
              testLoader "testTable"); [by vm_compute | lia].
  - refine (proj1 (proj2 (textWidth_no_lower_bound (textColumn "257") 257 eq_refl _)) _);
      [by vm_compute | lia].
Defined.

(** ** Claims about [buildCopyFromS3Query] *)

Lemma copyLoop_written schema sb prefix :
  copyLoop schema sb prefix = sb +:+ writtenWith ", " prefix (widthPair <$> schema).
Proof.
  revert sb prefix. induction schema as [|c schema IH]; intros sb prefix.
  - simpl. by rewrite app_nil_r_s.
  - simpl. rewrite IH. unfold widthPair. by rewrite !app_assoc_s.
Qed.

(** C2. [buildCopyFromS3Query] has no error result and checks nothing: for
    every schema (empty, with repeated names or unknown types as well) it
    returns COPY tableName FROM 's3://bucket/key' IAM_ROLE 'arn' FIXEDWIDTH
    'pairs'; where arn is built from the account id 653026974230 and the
    role name data-loader-redshift-copy-Env-us-west-2 and pairs are the
    name:width pairs in schema order, separated by a comma and a space. On
    the schema of the tests it returns the statement the tests expect. *)
Theorem buildCopyFromS3Query_spec d schema tableName copyTarget :
  buildCopyFromS3Query d schema tableName copyTarget
  = specCopy d schema tableName copyTarget
  ∧ buildCopyFromS3Query testLoader testSchema "testtable" "testtarget"
    = "COPY testtable FROM 's3://testDB/testtarget' IAM_ROLE 'arn:aws:iam::653026974230:role/data-loader-redshift-copy--us-west-2' FIXEDWIDTH 'testCol1:4, testCol2:42, testCol3:8, testCol4:4';"
  ∧ buildCopyFromS3Query testLoader [] "testtable" "testtarget"
    = "COPY testtable FROM 's3://testDB/testtarget' IAM_ROLE 'arn:aws:iam::653026974230:role/data-loader-redshift-copy--us-west-2' FIXEDWIDTH '';"
  ∧ buildCopyFromS3Query testLoader
      [ {| Name := "a"; Width := "x"; DataType := "BAD_TYPE" |};
        {| Name := "a"; Width := "-1"; DataType := "TEXT" |} ]
      "testtable" "testtarget"
    = "COPY testtable FROM 's3://testDB/testtarget' IAM_ROLE 'arn:aws:iam::653026974230:role/data-loader-redshift-copy--us-west-2' FIXEDWIDTH 'a:x, a:-1';".
Proof.
  split; [|by vm_compute].
  unfold buildCopyFromS3Query, specCopy, specRoleArn.
  rewrite copyLoop_written, writtenWith_first.
  by rewrite !app_assoc_s.
Qed.

(** ** The csv reader on plain schema files *)

Lemma inLine_app a b : inLine a → inLine b → inLine (a +:+ b).
Proof.
  induction a as [|c a IH]; [done|].
  intros [Hc Ha] Hb. split; [done|]. by apply IH.
Qed.

Lemma plainField_inLine f : plainField f → inLine f.
Proof.
  induction f as [|c f IH]; [done|].
  intros [(_ & _ & HLF & HCR) Hf]. split; [done|]. by apply IH.
Qed.

Lemma dropCR_inLine s : inLine s → csv.dropCR s = s.
Proof.
  induction s as [|c s IH]; [done|].
  intros [[_ HCR] Hs]. simpl. destruct s as [|c' s'].
  - by rewrite decide_False.
  - by rewrite IH.
Qed.

Lemma readLines_line l rest line :
  inLine line → inLine l →
  csv.readLines (l +:+ String csv.LF rest) line
  = csv.snoc (line +:+ l) csv.LF :: csv.readLines rest "".
Proof.
  revert line. induction l as [|c l IH]; intros line Hline Hl.
  - change ("" +:+ String csv.LF rest) with (String csv.LF rest).
    cbn [csv.readLines]. rewrite decide_True by done.
    by rewrite app_nil_r_s, dropCR_inLine.
  - destruct Hl as [[HLF HCR] Hl].
    change (String c l +:+ String csv.LF rest)
      with (String c (l +:+ String csv.LF rest)).
    cbn [csv.readLines]. rewrite decide_False by done.
    rewrite IH; [| |done].
    + unfold csv.snoc. by rewrite !app_assoc_s.
    + unfold csv.snoc. apply inLine_app; [done|]. by split.
Qed.

Lemma parseLine_field f m fields field :
  plainField f → m = csv.FieldStart ∨ m = csv.Unquoted →
  (∀ rest,
     csv.parseLine (f +:+ String csv.comma rest) m fields field
     = csv.parseLine rest csv.FieldStart (fields ++ [field +:+ f]) "")
  ∧ csv.parseLine (f +:+ newline) m fields field
    = csv.RecordDone (fields ++ [field +:+ f]).
Proof.
  revert m field. induction f as [|c f IH]; intros m field Hf Hm.
  - rewrite app_nil_r_s.
    split; [intros rest|]; destruct Hm as [-> | ->]; by vm_compute.
  - destruct Hf as [(Hcomma & Hquote & HLF & HCR) Hf].
    assert (Hstep : ∀ tail,
      csv.parseLine (String c f +:+ tail) m fields field
      = csv.parseLine (f +:+ tail) csv.Unquoted fields (csv.snoc field c)).
    { intros tail.
      change (String c f +:+ tail) with (String c (f +:+ tail)).
      destruct Hm as [-> | ->]; cbn [csv.parseLine];
        rewrite ?(bool_decide_eq_false_2 _ Hquote), ?andb_false_r;
        rewrite (decide_False (P := c = csv.comma)) by done;
        unfold csv.isLastLF; rewrite (bool_decide_eq_false_2 _ HLF);
        cbn [andb]; by rewrite (decide_False (P := c = csv.quote)). }
    destruct (IH csv.Unquoted (csv.snoc field c) Hf (or_intror eq_refl)) as [IH1 IH2].
    assert (Hfield : csv.snoc field c +:+ f = field +:+ String c f)
      by (unfold csv.snoc; by rewrite app_assoc_s).
    split; [intros rest|]; rewrite Hstep.
    + by rewrite IH1, Hfield.
    + by rewrite IH2, Hfield.
Qed.

Lemma parseLine_plainRow row :
  plainRow row →
  csv.parseLine (renderRow row) csv.FieldStart [] "" = csv.RecordDone row.
Proof.
  intros (a & b & c & -> & Ha & Hb & Hc).
  unfold renderRow, joinWith. cbn [String.concat].
  change (String.append ?x ?y) with (x +:+ y).
  rewrite !app_assoc_s.
  change ("," +:+ ?x) with (String csv.comma x).
  rewrite (proj1 (parseLine_field a _ _ _ Ha (or_introl eq_refl))).
  change ("," +:+ ?x) with (String csv.comma x).
  rewrite (proj1 (parseLine_field b _ _ _ Hb (or_introl eq_refl))).
  by rewrite (proj2 (parseLine_field c _ _ _ Hc (or_introl eq_refl))).
Qed.

Lemma renderRow_inLine row :
  plainRow row → ∃ l, renderRow row = l +:+ String csv.LF "" ∧ inLine l ∧ l ≠ "".
Proof.
  intros (a & b & c & -> & Ha & Hb & Hc).
  exists (a +:+ "," +:+ b +:+ "," +:+ c). split; [|split].
  - unfold renderRow, joinWith, newline. cbn [String.concat].
    change (String.append ?x ?y) with (x +:+ y).
    by rewrite !app_assoc_s.
  - repeat (apply inLine_app; [by apply plainField_inLine|]).
    apply (inLine_app ","); [by vm_compute|].
    repeat (apply inLine_app; [by apply plainField_inLine|]).
    apply (inLine_app ","); [by vm_compute|]. by apply plainField_inLine.
  - by destruct a.
Qed.

Lemma readLines_plain rows :
  Forall plainRow rows →
  csv.readLines (renderRows rows) "" = renderRow <$> rows.
Proof.
  induction rows as [|row rows IH]; intros Hrows; [done|].
  apply Forall_cons in Hrows as [Hrow Hrows].
  cbn [renderRows foldr fmap list_fmap].
  destruct (renderRow_inLine row Hrow) as (l & Hl & Hin & _).
  rewrite Hl, app_assoc_s.
  change (String csv.LF "" +:+ ?x) with (String csv.LF x).
  rewrite readLines_line by done.
  unfold csv.snoc. f_equal. by apply IH.
Qed.

Lemma readRecords_plain rows FieldsPerRecord records :
  Forall plainRow rows →
  FieldsPerRecord = 0%nat ∨ FieldsPerRecord = 3%nat →
  csv.readRecords (renderRow <$> rows) None FieldsPerRecord records
  = (records ++ rows, None).
Proof.
  revert FieldsPerRecord records.
  induction rows as [|row rows IH]; intros FieldsPerRecord records Hrows Hfpr.
  - simpl. by rewrite app_nil_r.
  - apply Forall_cons in Hrows as [Hrow Hrows].
    cbn [fmap list_fmap csv.readRecords].
    destruct (renderRow_inLine row Hrow) as (l & Hl & _ & Hne).
    assert (Hskip : bool_decide (renderRow row = "")
                    || bool_decide (renderRow row = String csv.LF "") = false).
    { rewrite Hl. destruct l as [|c l]; [done|].
      apply orb_false_iff. split; apply bool_decide_eq_false_2.
      - discriminate.
      - destruct l; discriminate. }
    rewrite Hskip, (parseLine_plainRow row Hrow).
    assert (Hlen : length row = 3%nat)
      by (destruct Hrow as (a & b & c & -> & _); done).
    rewrite Hlen.
    destruct Hfpr as [-> | ->]; cbn [Nat.ltb Nat.leb Nat.eqb negb];
      rewrite IH by (done || by right); by rewrite <- app_assoc.
Qed.

(** The reader gives back the rows of a plain schema file. *)
Lemma ReadAll_plain rows :
  Forall plainRow rows → csv.ReadAll (renderRows rows) = (rows, None).
Proof.
  intros Hrows. unfold csv.ReadAll.
  rewrite readLines_plain by done. by rewrite readRecords_plain by (done || by left).
Qed.

(** ** Claims about [marshalTableSchema] *)

Lemma index_three (line : list string) :
  length line = 3%nat →
  index line 0 = Ret (default "" (line !! 0%nat))
  ∧ index line 1 = Ret (default "" (line !! 1%nat))
  ∧ index line 2 = Ret (default "" (line !! 2%nat)).
Proof.
  destruct line as [|a [|b [|c [|? ?]]]]; intros [=]. by repeat split.
Qed.

Lemma marshalLoop_three lines i dbColumns :
  Forall (λ line : list string, length line = 3%nat) lines →
  marshalLoop lines (S i) dbColumns = Ret (dbColumns ++ (rowColumn <$> lines)).
Proof.
  revert i dbColumns. induction lines as [|line lines IH]; intros i dbColumns Hall.
  - simpl. by rewrite app_nil_r.
  - apply Forall_cons in Hall as [Hline Hall].
    destruct (index_three line Hline) as (H0 & H1 & H2).
    cbn [marshalLoop Nat.eqb]. rewrite H0, H1, H2.
    rewrite IH by done. by rewrite <- app_assoc.
Qed.

(** C7. When the reader parses the input into records of three fields
    each, [marshalTableSchema] drops the first record and turns every other
    record, in order and one for one, into the column made of its first,
    second and third field. This is so for every plain schema file (a
    header and rows of three fields without comma, quote or line break), and
    for the schema file of the tests, which gives the columns name, valid
    and count. *)
Theorem marshalTableSchema_rows :
  (∀ rawSchema lines,
     csv.ReadAll rawSchema = (lines, None) →
     Forall (λ line : list string, length line = 3%nat) lines →
     marshalTableSchema rawSchema = Ret (rowColumn <$> tail lines, None)
     ∧ length (rowColumn <$> tail lines) = length (tail lines)
     ∧ ∀ (i : nat) line, tail lines !! i = Some line →
         (rowColumn <$> tail lines) !! i = Some (rowColumn line)
         ∧ ∃ name width dataType, line = [name; width; dataType]
             ∧ rowColumn line
               = {| Name := name; Width := width; DataType := dataType |})
  ∧ (∀ header rows,
       plainRow header → Forall plainRow rows →
       marshalTableSchema (renderRows (header :: rows))
       = Ret (rowColumn <$> rows, None))
  ∧ marshalTableSchema testRawSchema = Ret (testParsedSchema, None).
Proof.
  assert (Hgen : ∀ rawSchema lines,
    csv.ReadAll rawSchema = (lines, None) →
    Forall (λ line : list string, length line = 3%nat) lines →
    marshalTableSchema rawSchema = Ret (rowColumn <$> tail lines, None)).
  { intros rawSchema lines HR Hall.
    unfold marshalTableSchema. rewrite HR.
    destruct lines as [|header rows]; [done|].
    apply Forall_cons in Hall as [_ Hall].
    cbn [marshalLoop Nat.eqb tail]. by rewrite marshalLoop_three. }
  split; [|split; [|by vm_compute]].
  - intros rawSchema lines HR Hall. split; [by apply Hgen|].
    split; [by rewrite length_fmap|].
    intros i line Hi. split; [by rewrite list_lookup_fmap, Hi|].
    assert (Hline : length line = 3%nat).
    { apply list_elem_of_lookup_2 in Hi.
      assert (Hin : line ∈ lines) by (destruct lines; [done | by right]).
      by apply (proj1 (Forall_forall _ _) Hall). }
    destruct line as [|a [|b [|c [|? ?]]]]; try discriminate Hline.
    by exists a, b, c.
  - intros header rows Hheader Hrows.
    assert (Hall : Forall plainRow (header :: rows)) by by apply Forall_cons.
    rewrite (Hgen _ (header :: rows)); [done | by apply ReadAll_plain |].
    eapply Forall_impl; [exact Hall|].
    by intros row (a & b & c & -> & _).
Qed.

(** Concrete rows are plain by inspection of their bytes. *)
Ltac plain_row :=
  eexists _, _, _; split; [reflexivity|];
  vm_compute; repeat split; discriminate.

Lemma marshalTableSchema_rows_witness :
  marshalTableSchema testRawSchema
  = Ret ([ {| Name := "name"; Width := "10"; DataType := "TEXT" |};
           {| Name := "valid"; Width := "1"; DataType := "BOOLEAN" |};
           {| Name := "count"; Width := "3"; DataType := "INTEGER" |} ], None)
  ∧ marshalTableSchema
      (renderRows [ ["column name"; "width"; "datatype"];
                    ["name"; "10"; "TEXT"]; ["valid"; "1"; "BOOLEAN"] ])
    = Ret ([ {| Name := "name"; Width := "10"; DataType := "TEXT" |};
             {| Name := "valid"; Width := "1"; DataType := "BOOLEAN" |} ], None).
Proof.
  split.
  - refine (proj1 (proj1 marshalTableSchema_rows testRawSchema
      [ ["column name"; "width"; "datatype"]; ["name"; "10"; "TEXT"];
        ["valid"; "1"; "BOOLEAN"]; ["count"; "3"; "INTEGER"] ] _ _)).
    + by vm_compute.
    + repeat (apply Forall_cons_2; [reflexivity|]). apply Forall_nil_2.
  - refine (proj1 (proj2 marshalTableSchema_rows)
      ["column name"; "width"; "datatype"]
      [ ["name"; "10"; "TEXT"]; ["valid"; "1"; "BOOLEAN"] ] _ _).
    + plain_row.
    + repeat (apply Forall_cons_2; [plain_row|]). apply Forall_nil_2.
Defined.

(** A row of fewer than three fields after the header makes the loop panic
    at the first field it lacks. *)
Lemma marshalTableSchema_short_row rawSchema header row rest :
  csv.ReadAll rawSchema = (header :: row :: rest, None) →
  (length row < 3)%nat →
  marshalTableSchema rawSchema = Panic (IndexOutOfRange (length row) (length row)).
Proof.
  intros HR Hlen. unfold marshalTableSchema. rewrite HR.
  destruct row as [|a [|b [|c row]]]; [done | done | done |].
  simpl in Hlen. lia.
Qed.

(** C8 does not hold of the code: the reader accepts a file whose records
    all have two fields (or all one field), and the loop then reads the
    third (or second) field of the first row after the header, which is out
    of range: the call panics instead of returning. *)
Theorem marshalTableSchema_short_rows_panic :
  csv.ReadAll twoFieldSchema = ([["column name"; "width"]; ["name"; "10"]], None)
  ∧ marshalTableSchema twoFieldSchema = Panic (IndexOutOfRange 2 2)
  ∧ csv.ReadAll oneFieldSchema = ([["column name"]; ["name"]], None)
  ∧ marshalTableSchema oneFieldSchema = Panic (IndexOutOfRange 1 1).
Proof. by vm_compute. Qed.

(** Apart from that, the parser returns: a reader error is passed on. *)
Lemma marshalTableSchema_reader_error rawSchema lines e :
  csv.ReadAll rawSchema = (lines, Some e) →
  marshalTableSchema rawSchema = Ret ([], Some e).
Proof. intros HR. unfold marshalTableSchema. by rewrite HR. Qed.

(** ** Claims about [LoadDataFileToRedshift] *)

Lemma splitByte_head s sep piece :
  ∃ first rest, strings.splitByte s sep piece = first :: rest.
Proof.
  revert piece. induction s as [|c s IH]; intros piece; simpl; [by eauto|].
  case_decide; by eauto.
Qed.

(** [strings.Split(fileName, sep)[0]] is always in range. *)
Lemma index_Split fileName :
  index (strings.Split fileName "_") 0 = Ret (targetTable fileName).
Proof.
  unfold targetTable, strings.Split.
  by destruct (splitByte_head fileName "_" "") as (first & rest & ->).
Qed.




Section OrchestratorFacts.

Context {World : Type} (C : Collaborators World).
Implicit Types (s : state World) (d : DataLoader).

Lemma bind_Ret {A B} (m : M World A) (k : A → M World B) s a s' :
  m s = (Ret a, s') → (m ≫= k) s = k a s'.
Proof. intros Hm. unfold mbind, M_bind. by rewrite Hm. Qed.

Lemma bind_Panic {A B} (m : M World A) (k : A → M World B) s p s' :
  m s = (Panic p, s') → (m ≫= k) s = (Panic p, s').
Proof. intros Hm. unfold mbind, M_bind. by rewrite Hm. Qed.

(** What each helper does with the collaborators. *)
Lemma fetchTableSchema_run d targetName s r s' :
  fetchTableSchema C d targetName s = (r, s') →
  trace s' = trace s ++ [EvGetObject (SchemaBucket d) (targetName +:+ ".csv")].
Proof.
  unfold fetchTableSchema, getObject, mbind, M_bind, mret, M_ret.
  destruct (GetObjectWithContext C _ _ _) as [[body [e|]] w]; by intros [= <- <-].
Qed.

Lemma checkIfRedShiftTableExists_run d tableName s r s' :
  checkIfRedShiftTableExists C d tableName s = (r, s') →
  trace s' = trace s ++ [EvQuery tableExistsQuery [tableName]].
Proof.
  unfold checkIfRedShiftTableExists, query, mbind, M_bind, mret, M_ret.
  destruct (QueryContext C _ _ _) as [[rows [e|]] w];
    [|destruct (Next rows)]; by intros [= <- <-].
Qed.

Lemma executeRedShiftCopyCommand_run d schema tableName copyTarget s :
  executeRedShiftCopyCommand C d schema tableName copyTarget s
  = let '(err, w) :=
      ExecContext C (buildCopyFromS3Query d schema tableName copyTarget) (world s) in
    (Ret err,
     Build_state w
       (trace s ++ [EvExec (buildCopyFromS3Query d schema tableName copyTarget)])).
Proof.
  unfold executeRedShiftCopyCommand, exec, mbind, M_bind, mret, M_ret.
  by destruct (ExecContext C _ _) as [[e|] w].
Qed.

Lemma createTable_run d tableName schema s :
  createTable C d tableName schema s
  = match buildCreateTableQuery d tableName schema with
    | (_, Some e) => (Ret (Some e), s)
    | (ddl, None) =>
        let '(err, w) := ExecContext C ddl (world s) in
        (Ret err, Build_state w (trace s ++ [EvExec ddl]))
    end.
Proof.
  unfold createTable, exec, mbind, M_bind, mret, M_ret.
  destruct (buildCreateTableQuery d tableName schema) as [ddl [e|]]; [done|].
  by destruct (ExecContext C _ _) as [err w].
Qed.

(** A run up to the existence check. *)
Lemma LoadDataFileToRedshift_checked d fileName s0 s1 s2 rawSchema schema tableExists :
  fetchTableSchema C d (targetTable fileName) s0 = (Ret (rawSchema, None), s1) →
  marshalTableSchema rawSchema = Ret (schema, None) →
  checkIfRedShiftTableExists C d (targetTable fileName) s1
  = (Ret (tableExists, None), s2) →
  LoadDataFileToRedshift C d fileName s0
  = (err ← (if negb tableExists
            then createTable C d (targetTable fileName) schema
            else mret None);
     match err with
     | Some e => mret (Some e)
     | None =>
         executeRedShiftCopyCommand C d schema (targetTable fileName) fileName
     end) s2
  ∧ trace s2 = trace s0
      ++ [EvGetObject (SchemaBucket d) (targetTable fileName +:+ ".csv");
          EvQuery tableExistsQuery [targetTable fileName]].
Proof.
  intros Hfetch Hparse Hcheck. split.
  - unfold LoadDataFileToRedshift.
    erewrite bind_Ret by (unfold lift; by rewrite index_Split).
    erewrite bind_Ret by exact Hfetch. cbn beta iota.
    erewrite bind_Ret by (unfold lift; by rewrite Hparse). cbn beta iota.
    erewrite bind_Ret by exact Hcheck. done.
  - rewrite (checkIfRedShiftTableExists_run _ _ _ _ _ Hcheck).
    rewrite (fetchTableSchema_run _ _ _ _ _ Hfetch).
    by rewrite <- app_assoc.
Qed.

(** A failure before the existence check has answered ends the run. *)
Lemma LoadDataFileToRedshift_fetch_failed d fileName s0 s1 body e :
  fetchTableSchema C d (targetTable fileName) s0 = (Ret (body, Some e), s1) →
  LoadDataFileToRedshift C d fileName s0 = (Ret (Some e), s1).
Proof.
  intros Hfetch. unfold LoadDataFileToRedshift.
  erewrite bind_Ret by (unfold lift; by rewrite index_Split).
  by erewrite bind_Ret by exact Hfetch.
Qed.

Lemma LoadDataFileToRedshift_parse_failed d fileName s0 s1 rawSchema cols e :
  fetchTableSchema C d (targetTable fileName) s0 = (Ret (rawSchema, None), s1) →
  marshalTableSchema rawSchema = Ret (cols, Some e) →
  LoadDataFileToRedshift C d fileName s0 = (Ret (Some e), s1).
Proof.
  intros Hfetch Hparse. unfold LoadDataFileToRedshift.
  erewrite bind_Ret by (unfold lift; by rewrite index_Split).
  erewrite bind_Ret by exact Hfetch. cbn beta iota.
  by erewrite bind_Ret by (unfold lift; by rewrite Hparse).
Qed.

Lemma LoadDataFileToRedshift_check_failed d fileName s0 s1 s2 rawSchema schema b e :
  fetchTableSchema C d (targetTable fileName) s0 = (Ret (rawSchema, None), s1) →
  marshalTableSchema rawSchema = Ret (schema, None) →
  checkIfRedShiftTableExists C d (targetTable fileName) s1 = (Ret (b, Some e), s2) →
  LoadDataFileToRedshift C d fileName s0 = (Ret (Some e), s2).
Proof.
  intros Hfetch Hparse Hcheck. unfold LoadDataFileToRedshift.
  erewrite bind_Ret by (unfold lift; by rewrite index_Split).
  erewrite bind_Ret by exact Hfetch. cbn beta iota.
  erewrite bind_Ret by (unfold lift; by rewrite Hparse). cbn beta iota.
  by erewrite bind_Ret by exact Hcheck.
Qed.

(** A panic of the parser ends the run as well, as a panic. *)
Lemma LoadDataFileToRedshift_parse_panic d fileName s0 s1 rawSchema p :
  fetchTableSchema C d (targetTable fileName) s0 = (Ret (rawSchema, None), s1) →
  marshalTableSchema rawSchema = Panic p →
  LoadDataFileToRedshift C d fileName s0 = (Panic p, s1).
Proof.
  intros Hfetch Hparse. unfold LoadDataFileToRedshift.
  erewrite bind_Ret by (unfold lift; by rewrite index_Split).
  erewrite bind_Ret by exact Hfetch. cbn beta iota.
  by erewrite bind_Panic by (unfold lift; by rewrite Hparse).
Qed.

(** What a run does once the existence check has answered. *)
Lemma LoadDataFileToRedshift_after_check d fileName s0 s1 s2 rawSchema schema tableExists :
  fetchTableSchema C d (targetTable fileName) s0 = (Ret (rawSchema, None), s1) →
  marshalTableSchema rawSchema = Ret (schema, None) →
  checkIfRedShiftTableExists C d (targetTable fileName) s1
  = (Ret (tableExists, None), s2) →
  LoadDataFileToRedshift C d fileName s0
  = let copy := buildCopyFromS3Query d schema (targetTable fileName) fileName in
    let runCopy (w : World) (t : list event) :=
      let '(err, w') := ExecContext C copy w in
      (Ret err, Build_state w' (t ++ [EvExec copy])) in
    if tableExists then runCopy (world s2) (trace s2)
    else
      match buildCreateTableQuery d (targetTable fileName) schema with
      | (_, Some e) => (Ret (Some e), s2)
      | (ddl, None) =>
          match ExecContext C ddl (world s2) with
          | (Some e, w3) => (Ret (Some e), Build_state w3 (trace s2 ++ [EvExec ddl]))
          | (None, w3) => runCopy w3 (trace s2 ++ [EvExec ddl])
          end
      end.
Proof.
  intros Hfetch Hparse Hcheck.
  rewrite (proj1 (LoadDataFileToRedshift_checked _ _ _ _ _ _ _ _ Hfetch Hparse Hcheck)).
  cbv zeta. destruct tableExists; cbn [negb].
  - unfold mbind, M_bind, mret, M_ret.
    by rewrite executeRedShiftCopyCommand_run.
  - unfold mbind, M_bind. rewrite createTable_run.
    destruct (buildCreateTableQuery _ _ _) as [ddl [e|]]; [done|].
    destruct (ExecContext C ddl (world s2)) as [[e|] w3]; [done|].
    by rewrite executeRedShiftCopyCommand_run.
Qed.

End OrchestratorFacts.





(** * Further properties of the code *)

(** ** The validator: what success and failure of [buildCreateTableQuery] mean *)

Lemma renderedDataType_ok c r :
  renderedDataType c = (r, None) → validColumn c.
Proof.
  unfold renderedDataType, validColumn. repeat case_decide.
  - destruct (strconv.Atoi (Width c)) as [n [e|]] eqn:HA; [intros [=]|].
    destruct (n <=? 256) eqn:Hn; [|intros [=]].
    intros _. left. split; [done|]. exists n. split; [done|]. by apply Z.leb_le.
  - intros _. by right; left.
  - intros _. by right; right.
  - intros [=].
Qed.

Lemma createTableLoop_ok cols sb prefix (set : gset string) q :
  createTableLoop cols sb prefix set = (q, None) →
  NoDup (Name <$> cols) ∧ (∀ c, c ∈ cols → Name c ∉ set) ∧ Forall validColumn cols.
Proof.
  revert sb prefix set. induction cols as [|c cols IH]; intros sb prefix set.
  - intros _. split; [constructor|]. split; [|constructor]. intros c Hc. inv Hc.
  - simpl. case_decide as Hin; [intros [=]|].
    destruct (renderedDataType c) as [r [e|]] eqn:HR; [intros [=]|].
    intros HL. apply IH in HL as (Hnd & Hfresh & Hvalid).
    split; [|split].
    + apply NoDup_cons. split; [|done].
      intros (c' & Heq & Hc')%list_elem_of_fmap.
      apply (Hfresh c' Hc'). rewrite <- Heq. set_solver.
    + intros c' [-> | Hc']%elem_of_cons; [done|].
      specialize (Hfresh c' Hc'). set_solver.
    + apply Forall_cons. split; [by eapply renderedDataType_ok | done].
Qed.

Lemma createTableLoop_error_empty cols sb prefix (set : gset string) q e :
  createTableLoop cols sb prefix set = (q, Some e) → q = "".
Proof.
  revert sb prefix set. induction cols as [|c cols IH]; intros sb prefix set.
  - intros [=].
  - simpl. case_decide; [by intros [= <- _]|].
    destruct (renderedDataType c) as [r [e'|]]; [by intros [= <- _]|]. apply IH.
Qed.

(** A statement is returned only for a schema that keeps the invariants of
    a table schema. *)
Lemma buildCreateTableQuery_sound d tableName schema q :
  buildCreateTableQuery d tableName schema = (q, None) →
  (1 ≤ length schema ≤ 1600)%nat
  ∧ NoDup (Name <$> schema) ∧ Forall validColumn schema.
Proof.
  unfold buildCreateTableQuery.
  destruct (length schema =? 0)%nat eqn:H0; [intros [=]|].
  destruct (1600 <? length schema)%nat eqn:Hbig; [intros [=]|].
  simpl. intros HL. apply createTableLoop_ok in HL as (Hnd & _ & Hvalid).
  apply Nat.eqb_neq in H0. apply Nat.ltb_ge in Hbig. split; [lia|done].
Qed.

(** X1. [buildCreateTableQuery] returns no error if and only if the schema
    has 1 to 1600 columns, pairwise distinct names and only accepted
    columns; and it returns either the complete statement without error or
    the empty string with an error, never a partial statement. *)
Theorem buildCreateTableQuery_ok_iff d tableName schema :
  ((buildCreateTableQuery d tableName schema).2 = None
   ↔ (1 ≤ length schema ≤ 1600)%nat
     ∧ NoDup (Name <$> schema) ∧ Forall validColumn schema)
  ∧ (buildCreateTableQuery d tableName schema = (specCreateTable tableName schema, None)
     ∨ ∃ e, buildCreateTableQuery d tableName schema = ("", Some e)).
Proof.
  destruct (buildCreateTableQuery d tableName schema) as [q [e|]] eqn:HB.
  - split.
    + split; [intros [=]|]. intros (Hlen & Hnd & Hvalid).
      rewrite buildCreateTableQuery_accepts in HB by done. discriminate.
    + right. exists e. f_equal.
      revert HB. unfold buildCreateTableQuery. case_match; [by intros [= <- _]|].
      apply createTableLoop_error_empty.
  - pose proof (buildCreateTableQuery_sound _ _ _ _ HB) as (Hlen & Hnd & Hvalid).
    split; [done|]. left.
    rewrite buildCreateTableQuery_accepts in HB by done. by rewrite HB.
Qed.

Lemma createTableLoop_error_kinds cols sb prefix (set : gset string) q e :
  createTableLoop cols sb prefix set = (q, Some e) →
  ∃ c, c ∈ cols
    ∧ (e = DuplicateColumnError (Name c)
       ∨ e = UnsupportedTypeError (DataType c)
       ∨ e = WidthExceededError (Width c)
       ∨ ∃ k, e = NumError "Atoi" (Width c) k).
Proof.
  revert sb prefix set. induction cols as [|c cols IH]; intros sb prefix set.
  - intros [=].
  - simpl. case_decide.
    { intros [= _ <-]. exists c. split; [by left|]. by left. }
    destruct (renderedDataType c) as [r [e'|]] eqn:HR.
    + intros [= _ <-]. exists c. split; [by left|].
      apply renderedDataType_error in HR as [[k ->] | [-> | ->]]; eauto 6.
    + intros HL. apply IH in HL as (c' & Hc' & He). exists c'. split; [by right|done].
Qed.

(** X2. Every error of [buildCreateTableQuery] is the column-count error
    with the length of the schema, or an error about one column of the
    schema: the duplicate error with its name, the unsupported-type error
    with its type, the width error with its width, or the error of
    [strconv.Atoi] on its width. *)
Theorem buildCreateTableQuery_error_kinds d tableName schema q e :
  buildCreateTableQuery d tableName schema = (q, Some e) →
  e = InvalidSchemaError (length schema)
  ∨ ∃ c, c ∈ schema
      ∧ (e = DuplicateColumnError (Name c)
         ∨ e = UnsupportedTypeError (DataType c)
         ∨ e = WidthExceededError (Width c)
         ∨ ∃ k, e = NumError "Atoi" (Width c) k).
Proof.
  unfold buildCreateTableQuery. case_match.
  - intros [= _ <-]. by left.
  - intros HL. right. by eapply createTableLoop_error_kinds.
Qed.

Lemma buildCreateTableQuery_error_kinds_witness :
  errorString "duplicate column name passed in expectedSchema: testCol"
  = InvalidSchemaError 2
  ∨ ∃ c, c ∈ [textColumn "4"; textColumn "4"]
      ∧ (errorString "duplicate column name passed in expectedSchema: testCol"
         = DuplicateColumnError (Name c)
         ∨ errorString "duplicate column name passed in expectedSchema: testCol"
           = UnsupportedTypeError (DataType c)
         ∨ errorString "duplicate column name passed in expectedSchema: testCol"
           = WidthExceededError (Width c)
         ∨ ∃ k, errorString "duplicate column name passed in expectedSchema: testCol"
                = NumError "Atoi" (Width c) k).
Proof.
  refine (buildCreateTableQuery_error_kinds testLoader "testTable"
            [textColumn "4"; textColumn "4"] "" _ _).
  by vm_compute.
Defined.

Lemma createTableLoop_error_stable cols more sb prefix (set : gset string) q e :
  createTableLoop cols sb prefix set = (q, Some e) →
  createTableLoop (cols ++ more) sb prefix set = ("", Some e).
Proof.
  revert sb prefix set. induction cols as [|c cols IH]; intros sb prefix set.
  - intros [=].
  - simpl. case_decide; [by intros [= _ <-]|].
    destruct (renderedDataType c) as [r [e'|]]; [by intros [= _ <-]|]. apply IH.
Qed.

(** X3. Validation goes by prefixes. An error found in a schema (other
    than the count error of the empty schema) is the error of every schema
    that extends it within 1600 columns; and when a schema is accepted so is
    every non-empty prefix of it, with the statement of that prefix. *)
Theorem buildCreateTableQuery_prefix d tableName schema more :
  schema ≠ [] →
  (length (schema ++ more) ≤ 1600)%nat →
  (∀ q e, buildCreateTableQuery d tableName schema = (q, Some e) →
     buildCreateTableQuery d tableName (schema ++ more) = ("", Some e))
  ∧ (∀ q, buildCreateTableQuery d tableName (schema ++ more) = (q, None) →
       buildCreateTableQuery d tableName schema
       = (specCreateTable tableName schema, None)).
Proof.
  intros Hne Hlen.
  assert (Hlen' : (1 ≤ length schema ≤ 1600)%nat).
  { rewrite length_app in Hlen. destruct schema; [done|]. simpl in *. lia. }
  split.
  - intros q e. unfold buildCreateTableQuery.
    replace (length schema =? 0)%nat with false
      by (symmetry; apply Nat.eqb_neq; lia).
    replace (1600 <? length schema)%nat with false
      by (symmetry; apply Nat.ltb_ge; lia).
    replace (length (schema ++ more) =? 0)%nat with false
      by (symmetry; apply Nat.eqb_neq; rewrite length_app; lia).
    replace (1600 <? length (schema ++ more))%nat with false
      by (symmetry; apply Nat.ltb_ge; lia).
    simpl. apply createTableLoop_error_stable.
  - intros q HB. apply buildCreateTableQuery_sound in HB as (_ & Hnd & Hvalid).
    apply buildCreateTableQuery_accepts; [done| |].
    + rewrite fmap_app in Hnd. by apply NoDup_app in Hnd as (? & _).
    + by apply Forall_app in Hvalid as [? _].
Qed.

Lemma buildCreateTableQuery_prefix_witness :
  buildCreateTableQuery testLoader "testTable" ([textColumn "257"] ++ testSchema)
  = ("", Some (WidthExceededError "257"))
  ∧ buildCreateTableQuery testLoader "testTable" (take 2 testSchema)
    = ("CREATE TABLE testTable( testCol1 VARCHAR(4), testCol2 VARCHAR(42));", None).
Proof.
  split.
  - refine (proj1 (buildCreateTableQuery_prefix testLoader "testTable"
              [textColumn "257"] testSchema _ _) "" _ _).
    + discriminate.
    + simpl. lia.
    + by vm_compute.
  - refine (proj2 (buildCreateTableQuery_prefix testLoader "testTable"
              (take 2 testSchema) (drop 2 testSchema) _ _)
              (specCreateTable "testTable" testSchema) _).
    + discriminate.
    + simpl. lia.
    + by vm_compute.
Defined.

(** X4. In a schema that [buildCreateTableQuery] accepts, the width of every
    TEXT column is a sign-and-digits string: what is written between the
    parentheses of VARCHAR(...) is never anything but an optional sign and
    decimal digits. *)
Theorem buildCreateTableQuery_text_width_numeric d tableName schema q c :
  buildCreateTableQuery d tableName schema = (q, None) →
  c ∈ schema → DataType c = "TEXT" →
  numeric (Width c) = true
  ∧ ∃ n, strconv.Atoi (Width c) = (n, None) ∧ n ≤ 256.
Proof.
  intros HB Hc HT.
  apply buildCreateTableQuery_sound in HB as (_ & _ & Hvalid).
  pose proof (proj1 (Forall_forall _ _) Hvalid c Hc) as [[_ (n & HA & Hn)] | [HI | HI]];
    [|rewrite HT in HI; discriminate..].
  split; [|by exists n].
  destruct (numeric (Width c)) eqn:Hnum; [done|].
  destruct (Atoi_nonnumeric _ Hnum) as (n' & k & HA'). rewrite HA in HA'. discriminate.
Qed.

Lemma buildCreateTableQuery_text_width_numeric_witness :
  numeric "42" = true ∧ ∃ n, strconv.Atoi "42" = (n, None) ∧ n ≤ 256.
Proof.
  refine (buildCreateTableQuery_text_width_numeric testLoader "testTable" testSchema
            (specCreateTable "testTable" testSchema)
            {| Name := "testCol2"; Width := "42"; DataType := "TEXT" |} _ _ eq_refl).
  - by vm_compute.
  - right. left.
Defined.

Lemma renderedDataType_blankWidth c :
  renderedDataType (blankWidth c) = renderedDataType c.
Proof.
  unfold blankWidth. case_decide as HT; [done|].
  unfold renderedDataType. simpl. by rewrite !(decide_False (P := _ = "TEXT")).
Qed.

Lemma Name_blankWidth c : Name (blankWidth c) = Name c.
Proof. unfold blankWidth. by case_decide. Qed.

Lemma createTableLoop_blankWidth cols sb prefix (set : gset string) :
  createTableLoop (blankWidth <$> cols) sb prefix set
  = createTableLoop cols sb prefix set.
Proof.
  revert sb prefix set. induction cols as [|c cols IH]; intros sb prefix set; [done|].
  rewrite fmap_cons. cbn [createTableLoop].
  rewrite renderedDataType_blankWidth, !Name_blankWidth.
  case_decide; [done|]. destruct (renderedDataType c) as [r [e|]]; [done|]. apply IH.
Qed.

(** X5. [buildCreateTableQuery] never reads the width of a column that is
    not TEXT: blanking those widths changes neither the statement nor the
    error, so an INTEGER or BOOLEAN column passes with any width string. *)
Theorem buildCreateTableQuery_blankWidth d tableName schema :
  buildCreateTableQuery d tableName (blankWidth <$> schema)
  = buildCreateTableQuery d tableName schema.
Proof.
  unfold buildCreateTableQuery. rewrite length_fmap.
  case_match; [done|]. apply createTableLoop_blankWidth.
Qed.

(** ** Widths written in decimal *)

Lemma byte_val_pretty_N_char m :
  (m < 10)%N → strconv.byte_val (pretty_N_char m) = 48 + Z.of_N m.
Proof.
  intros Hm.
  assert (m = 0 ∨ m = 1 ∨ m = 2 ∨ m = 3 ∨ m = 4 ∨ m = 5 ∨ m = 6
          ∨ m = 7 ∨ m = 8 ∨ m = 9)%N as Hcases by lia.
  repeat (destruct Hcases as [-> | Hcases]; [by vm_compute|]). subst. by vm_compute.
Qed.

Lemma atoi_fast_pretty_N_go x s a :
  ∃ k, 0 ≤ k
    ∧ strconv.atoi_fast (pretty_N_go x s) a
      = strconv.atoi_fast s (a * 10 ^ k + Z.of_N x).
Proof.
  revert s a. induction (N.lt_wf_0 x) as [x _ IH]; intros s a.
  assert (x = 0 ∨ 0 < x)%N as [-> | Hx] by lia.
  - exists 0. split; [done|]. rewrite pretty_N_go_0. f_equal. lia.
  - rewrite pretty_N_go_step by done.
    destruct (IH (x `div` 10)%N (N.div_lt x 10 Hx eq_refl)
                (String (pretty_N_char (x `mod` 10)) s) a) as (k & Hk & ->).
    exists (k + 1). split; [lia|].
    cbn [strconv.atoi_fast].
    rewrite byte_val_pretty_N_char by (by apply N.mod_lt).
    pose proof (N.mod_lt x 10 ltac:(done)) as Hmod.
    pose proof (N.div_mod x 10 ltac:(done)) as Hdiv.
    set (m := (x `mod` 10)%N) in *. set (y := (x `div` 10)%N) in *.
    replace (48 + Z.of_N m - 48) with (Z.of_N m) by lia.
    rewrite Z.mod_small by lia.
    replace (9 <? Z.of_N m) with false by (symmetry; apply Z.ltb_ge; lia).
    f_equal. rewrite Z.pow_add_r by lia. lia.
Qed.

Lemma length_pretty_N_go (k : nat) x s :
  (x < 10 ^ N.of_nat k)%N →
  (String.length (pretty_N_go x s) ≤ k + String.length s)%nat.
Proof.
  revert x s. induction k as [|k IH]; intros x s Hx.
  - assert (x = 0)%N as -> by (simpl in Hx; lia). by rewrite pretty_N_go_0.
  - assert (x = 0 ∨ 0 < x)%N as [-> | Hpos] by lia.
    { rewrite pretty_N_go_0. lia. }
    rewrite pretty_N_go_step by done.
    etrans; [apply IH|simpl; lia].
    apply N.Div0.div_lt_upper_bound.
    rewrite Nat2N.inj_succ, N.pow_succ_r' in Hx. lia.
Qed.

Lemma isDigit_pretty_N_char m : (m < 10)%N → isDigit (pretty_N_char m) = true.
Proof.
  intros Hm. unfold isDigit. rewrite byte_val_pretty_N_char by done.
  apply andb_true_iff. split; apply Z.leb_le; lia.
Qed.

Lemma pretty_N_go_head x s :
  (0 < x)%N → ∃ c rest, pretty_N_go x s = String c rest ∧ isDigit c = true.
Proof.
  revert s. induction (N.lt_wf_0 x) as [x _ IH]; intros s Hx.
  rewrite pretty_N_go_step by done.
  destruct (N.eq_0_gt_0_cases (x `div` 10)) as [-> | Hpos].
  - rewrite pretty_N_go_0. eexists _, _. split; [done|].
    apply isDigit_pretty_N_char. by apply N.mod_lt.
  - apply IH; [by apply N.div_lt | done].
Qed.

(** [strconv.Atoi] reads back what [%d] writes, for a count below 10^18. *)
Lemma Atoi_fmt_d (n : nat) :
  (N.of_nat n < 10 ^ 18)%N → strconv.Atoi (fmt_d n) = (Z.of_nat n, None).
Proof.
  intros Hn. unfold fmt_d, pretty, pretty_nat, pretty, pretty_N.
  case_decide as H0.
  { assert (n = 0%nat) as -> by lia. by vm_compute. }
  assert (Hpos : (0 < N.of_nat n)%N) by lia.
  destruct (pretty_N_go_head (N.of_nat n) "" Hpos) as (c & rest & Hs & Hc).
  pose proof (length_pretty_N_go 18 (N.of_nat n) "" Hn) as Hlen.
  destruct (atoi_fast_pretty_N_go (N.of_nat n) "" 0) as (k & Hk & Hfast).
  rewrite Hs in Hlen, Hfast. rewrite Hs.
  assert (Hminus : bool_decide (c = "-"%char) = false)
    by (apply bool_decide_eq_false_2; intros ->; discriminate Hc).
  assert (Hplus : bool_decide (c = "+"%char) = false)
    by (apply bool_decide_eq_false_2; intros ->; discriminate Hc).
  unfold strconv.Atoi.
  replace ((0 <? String.length (String c rest))%nat
           && (String.length (String c rest) <? 19)%nat) with true.
  2:{ symmetry. apply andb_true_iff. split.
      - apply Nat.ltb_lt. simpl. lia.
      - apply Nat.ltb_lt. simpl in *. lia. }
  lazy beta iota zeta. rewrite Hminus, Hplus. cbn [orb andb].
  rewrite Hfast. cbn [strconv.atoi_fast]. f_equal. lia.
Qed.

(** X6. A TEXT width written in decimal is read back as the number it
    denotes: for every count n below 10^18, a schema of one TEXT column of
    width n builds to VARCHAR(n) when n is at most 256 and is refused with
    the width error otherwise. *)
Theorem buildCreateTableQuery_decimal_width (n : nat) d tableName name :
  (N.of_nat n < 10 ^ 18)%N →
  buildCreateTableQuery d tableName
    [ {| Name := name; Width := fmt_d n; DataType := "TEXT" |} ]
  = if decide (n ≤ 256)%nat
    then ("CREATE TABLE " +:+ tableName +:+ "( " +:+ name
          +:+ " VARCHAR(" +:+ fmt_d n +:+ "));", None)
    else ("", Some (WidthExceededError (fmt_d n))).
Proof.
  intros Hn. pose proof (Atoi_fmt_d n Hn) as HA.
  unfold buildCreateTableQuery. cbn [length Nat.eqb Nat.ltb Nat.leb orb createTableLoop Name].
  rewrite decide_False by set_solver.
  case_decide as Hle.
  - rewrite (renderedDataType_text _ (Z.of_nat n)) by (done || lia).
    cbn [Width Name]. by rewrite !app_assoc_s.
  - by rewrite (renderedDataType_too_wide _ (Z.of_nat n)) by (done || lia).
Qed.

Lemma buildCreateTableQuery_decimal_width_witness :
  buildCreateTableQuery testLoader "testTable" [textColumn "1000"]
  = ("", Some (errorString "passed column width 1000 is larger then TEXT field allows"))
  ∧ buildCreateTableQuery testLoader "testTable" [textColumn "255"]
    = ("CREATE TABLE testTable( testCol VARCHAR(255));", None).
Proof.
  split.
  - refine (buildCreateTableQuery_decimal_width 1000 testLoader "testTable" "testCol" _).
    by vm_compute.
  - refine (buildCreateTableQuery_decimal_width 255 testLoader "testTable" "testCol" _).
    by vm_compute.
Defined.

(** ** The schema parser on every input *)

Lemma index_lt {A} (l : list A) (i : nat) :
  (i < length l)%nat → ∃ x, l !! i = Some x ∧ index l i = Ret x.
Proof.
  intros Hi. destruct (lookup_lt_is_Some_2 l i Hi) as [x Hx].
  exists x. split; [done|]. unfold index. by rewrite Hx.
Qed.

Lemma marshalLoop_wide lines i dbColumns :
  Forall (λ line : list string, (3 ≤ length line)%nat) lines →
  marshalLoop lines (S i) dbColumns = Ret (dbColumns ++ (rowColumn <$> lines)).
Proof.
  revert i dbColumns. induction lines as [|line lines IH]; intros i dbColumns Hall.
  - simpl. by rewrite app_nil_r.
  - apply Forall_cons in Hall as [Hline Hall].
    destruct (index_lt line 0 ltac:(lia)) as (a & Ha & H0).
    destruct (index_lt line 1 ltac:(lia)) as (b & Hb & H1).
    destruct (index_lt line 2 ltac:(lia)) as (c & Hc & H2).
    assert (Hrow : rowColumn line = {| Name := a; Width := b; DataType := c |})
      by (unfold rowColumn; by rewrite Ha, Hb, Hc).
    cbn [marshalLoop Nat.eqb]. rewrite H0, H1, H2, IH by done.
    by rewrite <- app_assoc, fmap_cons, Hrow.
Qed.

Lemma marshalLoop_narrow line lines i dbColumns :
  (length line < 3)%nat →
  marshalLoop (line :: lines) (S i) dbColumns
  = Panic (IndexOutOfRange (length line) (length line)).
Proof. intros Hlen. by destruct line as [|a [|b [|c line]]]; [| | |simpl in Hlen; lia]. Qed.

Lemma marshalLoop_header header lines dbColumns :
  marshalLoop (header :: lines) 0 dbColumns = marshalLoop lines 1 dbColumns.
Proof. done. Qed.

(** X7. Fields beyond the third are dropped without an error: when the
    reader yields records of three or more fields, [marshalTableSchema]
    returns, for every record but the first, the column made of its first
    three fields. *)
Theorem marshalTableSchema_wide_rows rawSchema lines :
  csv.ReadAll rawSchema = (lines, None) →
  Forall (λ line : list string, (3 ≤ length line)%nat) lines →
  marshalTableSchema rawSchema = Ret (rowColumn <$> tail lines, None).
Proof.
  intros HR Hall. unfold marshalTableSchema. rewrite HR.
  destruct lines as [|header rows]; [done|].
  apply Forall_cons in Hall as [_ Hall].
  cbn [marshalLoop Nat.eqb tail]. by rewrite marshalLoop_wide.
Qed.

Lemma marshalTableSchema_wide_rows_witness :
  marshalTableSchema
    ("column name,width,datatype,comment" +:+ newline
     +:+ "name,10,TEXT,the name" +:+ newline)
  = Ret ([ {| Name := "name"; Width := "10"; DataType := "TEXT" |} ], None).
Proof.
  refine (marshalTableSchema_wide_rows _
            [ ["column name"; "width"; "datatype"; "comment"];
              ["name"; "10"; "TEXT"; "the name"] ] _ _).
  - by vm_compute.
  - repeat (apply Forall_cons_2; [simpl; lia|]). apply Forall_nil_2.
Defined.

(** The reader never yields a record without a field. *)
Lemma parseLine_RecordDone line m fields field record :
  csv.parseLine line m fields field = csv.RecordDone record → (0 < length record)%nat.
Proof.
  revert m fields field. induction line as [|c line IH]; intros m fields field.
  - destruct m; simpl; intros [= <-]; rewrite length_app; simpl; lia.
  - destruct m; cbn [csv.parseLine]; repeat case_match; try discriminate;
      try apply IH; intros [= <-]; rewrite length_app; simpl; lia.
Qed.

(** [readRecords] keeps all records at the field count of the first. *)
Lemma readRecords_uniform lines pending FieldsPerRecord records out :
  (FieldsPerRecord = 0%nat ∧ records = []
   ∨ (0 < FieldsPerRecord)%nat
     ∧ Forall (λ r : list string, length r = FieldsPerRecord) records) →
  csv.readRecords lines pending FieldsPerRecord records = (out, None) →
  ∃ n, (0 < n)%nat ∧ Forall (λ r : list string, length r = n) out.
Proof.
  revert pending FieldsPerRecord records.
  induction lines as [|line lines IH]; intros pending FieldsPerRecord records Hinv.
  - simpl. destruct pending; [intros [=]|]. intros [= <-].
    destruct Hinv as [[_ ->] | [Hpos Hall]].
    + exists 1%nat. split; [lia | constructor].
    + by exists FieldsPerRecord.
  - cbn [csv.readRecords].
    destruct (match pending with
              | Some (fields, field) => Some (csv.parseLine line csv.Quoted fields field)
              | None =>
                  if bool_decide (line = "") || bool_decide (line = String csv.LF "")
                  then None
                  else Some (csv.parseLine line csv.FieldStart [] "")
              end) as [[record | fields field | e] |] eqn:Hparsed.
    + assert (Hrec : (0 < length record)%nat).
      { destruct pending as [[fields field]|].
        - injection Hparsed as Hparsed. by eapply parseLine_RecordDone.
        - case_match; [discriminate|]. injection Hparsed as Hparsed.
          by eapply parseLine_RecordDone. }
      destruct (0 <? FieldsPerRecord)%nat eqn:Hfpr.
      * destruct (length record =? FieldsPerRecord)%nat eqn:Heq; [|intros [=]].
        cbn [negb]. apply IH. right. apply Nat.ltb_lt in Hfpr. split; [done|].
        destruct Hinv as [[-> _] | [_ Hall]]; [lia|].
        apply Forall_app. split; [done|]. apply Forall_singleton. by apply Nat.eqb_eq.
      * apply IH. right. split; [done|].
        apply Nat.ltb_ge in Hfpr.
        destruct Hinv as [[_ ->] | [Hpos _]]; [|lia]. by apply Forall_singleton.
    + by apply IH.
    + intros [=].
    + by apply IH.
Qed.

Lemma ReadAll_uniform rawSchema lines :
  csv.ReadAll rawSchema = (lines, None) →
  ∃ n, (0 < n)%nat ∧ Forall (λ r : list string, length r = n) lines.
Proof. apply readRecords_uniform. by left. Qed.

(** X8. What [marshalTableSchema] does on every input. A reader error is
    returned with no column. Otherwise all records have one field count n:
    with at most one record, or with n at least 3, the parser returns the
    columns of the records after the first; with two or more records of
    fewer than three fields it panics, the index out of range being n. *)
Theorem marshalTableSchema_cases rawSchema :
  match csv.ReadAll rawSchema with
  | (_, Some e) => marshalTableSchema rawSchema = Ret ([], Some e)
  | (lines, None) =>
      ∃ n, (0 < n)%nat ∧ Forall (λ r : list string, length r = n) lines
        ∧ marshalTableSchema rawSchema
          = if decide (length lines ≤ 1 ∨ 3 ≤ n)%nat
            then Ret (rowColumn <$> tail lines, None)
            else Panic (IndexOutOfRange n n)
  end.
Proof.
  destruct (csv.ReadAll rawSchema) as [lines [e|]] eqn:HR.
  - unfold marshalTableSchema. by rewrite HR.
  - destruct (ReadAll_uniform _ _ HR) as (n & Hn & Hall).
    destruct lines as [|header [|row rows]].
    + exists n. split; [done|]. split; [done|].
      rewrite decide_True by (simpl; lia). unfold marshalTableSchema. by rewrite HR.
    + exists n. split; [done|]. split; [done|].
      rewrite decide_True by (simpl; lia). unfold marshalTableSchema. by rewrite HR.
    + exists n. split; [done|]. split; [done|].
      unfold marshalTableSchema. rewrite HR, marshalLoop_header.
      apply Forall_cons in Hall as [_ Hall].
      case_decide as Hcase.
      * rewrite marshalLoop_wide; [done|].
        eapply Forall_impl; [exact Hall|]. simpl. intros r ->.
        destruct Hcase as [Hcase | Hcase]; [simpl in Hcase; lia | done].
      * apply Forall_cons in Hall as [Hrow _].
        rewrite marshalLoop_narrow by lia. by rewrite Hrow.
Qed.

(** ** The target table of a file *)

Lemma splitByte_first s sep piece :
  ∃ pre, head (strings.splitByte s sep piece) = Some (piece +:+ pre)
    ∧ ¬ occurs sep pre
    ∧ (s = pre ∨ ∃ rest, s = pre +:+ String sep rest).
Proof.
  revert piece. induction s as [|c s IH]; intros piece.
  - exists "". simpl. rewrite app_nil_r_s. split; [done|]. split; [tauto|by left].
  - simpl. case_decide as Hc.
    + exists "". rewrite app_nil_r_s. split; [done|]. split; [simpl; tauto|].
      right. exists s. by rewrite Hc.
    + destruct (IH (piece +:+ String c "")) as (pre & Hhead & Hno & Hs).
      exists (String c pre). split; [by rewrite Hhead, app_assoc_s|].
      split; [simpl; tauto|].
      destruct Hs as [-> | [rest ->]]; [by left|]. right. by exists rest.
Qed.

Lemma occurs_app_sep pre sep rest : occurs sep (pre +:+ String sep rest).
Proof. induction pre as [|c pre IH]; [by left|]. by right. Qed.

(** X9. The target table is the part of the file name before its first
    underscore: it has no underscore, the file name is it alone or it
    followed by an underscore and the rest, and a file name without
    underscore is the target table as it stands (extension included). *)
Theorem targetTable_spec fileName :
  ¬ occurs "_" (targetTable fileName)
  ∧ (fileName = targetTable fileName
     ∨ ∃ rest, fileName = targetTable fileName +:+ String "_" rest)
  ∧ (¬ occurs "_" fileName → targetTable fileName = fileName).
Proof.
  unfold targetTable, strings.Split.
  destruct (splitByte_first fileName "_" "") as (pre & -> & Hno & Hs).
  simpl. split; [done|]. split; [done|].
  intros Hfile. destruct Hs as [-> | [rest ->]]; [done|].
  destruct Hfile. apply occurs_app_sep.
Qed.

Lemma targetTable_spec_witness : targetTable "orders.txt" = "orders.txt".
Proof.
  refine (proj2 (proj2 (targetTable_spec "orders.txt")) _).
  vm_compute. intros H. repeat (destruct H as [H | H]; [discriminate H|]). exact H.
Defined.

(** ** Every run of [LoadDataFileToRedshift] *)

Section RunFacts.

Context {World : Type} (C : Collaborators World).
Implicit Types (s : state World) (d : DataLoader).

Lemma fetchTableSchema_returns d targetName s :
  ∃ r s', fetchTableSchema C d targetName s = (Ret r, s')
    ∧ trace s' = trace s ++ [EvGetObject (SchemaBucket d) (targetName +:+ ".csv")]
    ∧ ((∃ e, r = ("", Some e)
           ∧ (GetObjectWithContext C (SchemaBucket d) (targetName +:+ ".csv") (world s)).1.2
             = Some e)
       ∨ GetObjectWithContext C (SchemaBucket d) (targetName +:+ ".csv") (world s)
         = (r, world s') ∧ r.2 = None).
Proof.
  unfold fetchTableSchema, getObject, mbind, M_bind, mret, M_ret.
  destruct (GetObjectWithContext C _ _ _) as [[body [e|]] w]; eexists _, _;
    (split; [done|]); (split; [done|]); [left; by eauto | by right].
Qed.

Lemma checkIfRedShiftTableExists_returns d tableName s :
  ∃ r s', checkIfRedShiftTableExists C d tableName s = (Ret r, s')
    ∧ trace s' = trace s ++ [EvQuery tableExistsQuery [tableName]].
Proof.
  unfold checkIfRedShiftTableExists, query, mbind, M_bind, mret, M_ret.
  destruct (QueryContext C _ _ _) as [[rows [e|]] w]; [|destruct (Next rows)];
    by eexists _, _.
Qed.

Lemma LoadDataFileToRedshift_runEnd d fileName s0 :
  ∃ r s ran,
    LoadDataFileToRedshift C d fileName s0 = (r, s) ∧ runEnd C d fileName s0 r s ran.
Proof.
  destruct (fetchTableSchema_returns d (targetTable fileName) s0)
    as ([rawSchema ferr] & s1 & Hfetch & _ & Hres).
  destruct ferr as [e|].
  { destruct Hres as [(e' & [= -> ->] & _) | [_ [=]]].
    eexists _, _, _. split; [by eapply LoadDataFileToRedshift_fetch_failed|].
    by eapply EndFetch. }
  destruct (marshalTableSchema rawSchema) as [[schema [e|]] | p] eqn:Hparse.
  { eexists _, _, _. split; [by eapply LoadDataFileToRedshift_parse_failed|].
    by eapply EndParse. }
  2:{ eexists _, _, _. split; [by eapply LoadDataFileToRedshift_parse_panic|].
      by eapply EndParsePanic. }
  destruct (checkIfRedShiftTableExists_returns d (targetTable fileName) s1)
    as ([b cerr] & s2 & Hcheck & _).
  destruct cerr as [e|].
  { eexists _, _, _. split; [by eapply LoadDataFileToRedshift_check_failed|].
    by eapply EndCheck. }
  rewrite (LoadDataFileToRedshift_after_check C _ _ _ _ _ _ _ _ Hfetch Hparse Hcheck).
  cbv zeta. destruct b.
  - destruct (ExecContext C _ (world s2)) as [err w3] eqn:Hcopy.
    eexists _, _, _. split; [done|]. by eapply EndCopy.
  - destruct (buildCreateTableQuery d (targetTable fileName) schema) as [ddl [e|]] eqn:HB.
    { eexists _, _, _. split; [done|]. by eapply EndBuild. }
    destruct (ExecContext C ddl (world s2)) as [[e|] w3] eqn:Hddl.
    { eexists _, _, _. split; [done|]. by eapply EndCreate. }
    destruct (ExecContext C _ w3) as [err w4] eqn:Hcopy.
    rewrite <- app_assoc.
    eexists _, _, _. split; [done|]. by eapply EndCopyCreated.
Qed.

End RunFacts.

Section RunProperties.

Context {World : Type} (C : Collaborators World).
Implicit Types (s : state World) (d : DataLoader).

Lemma runEnd_trace d fileName s0 r s ran :
  runEnd C d fileName s0 r s ran →
  (trace s = trace s0
     ++ [EvGetObject (SchemaBucket d) (targetTable fileName +:+ ".csv")]
   ∧ ran = []
   ∨ trace s = trace s0 ++ callsBeforeExec d fileName ++ (EvExec <$> ran)
     ∧ ∃ e, r = Ret e)
  ∧ (length ran ≤ 2)%nat.
Proof.
  assert (Hcalls : ∀ r1 s1 r2 s2,
    fetchTableSchema C d (targetTable fileName) s0 = (r1, s1) →
    checkIfRedShiftTableExists C d (targetTable fileName) s1 = (r2, s2) →
    trace s2 = trace s0 ++ callsBeforeExec d fileName).
  { intros r1 s1 r2 s2 Hfetch Hcheck.
    rewrite (checkIfRedShiftTableExists_run C _ _ _ _ _ Hcheck).
    rewrite (fetchTableSchema_run C _ _ _ _ _ Hfetch). by rewrite <- app_assoc. }
  intros Hend. split; [|inv Hend; simpl; lia].
  inv Hend;
    try (left; split; [by eapply fetchTableSchema_run | done]);
    right; (split; [|by eauto]); cbn [trace fmap list_fmap];
    erewrite Hcalls by done; by rewrite <- ?app_assoc, ?app_nil_r.
Qed.


(** X10. The calls of any run, whatever the collaborators answer: the
    schema object of the target table is fetched first and once; the
    existence query, if the run gets that far, comes second and once; then
    at most two statements are executed. A run that panics has made the
    fetch and nothing else. *)
Theorem LoadDataFileToRedshift_calls d fileName s0 :
  ∃ r s ran,
    LoadDataFileToRedshift C d fileName s0 = (r, s)
    ∧ (trace s = trace s0
         ++ [EvGetObject (SchemaBucket d) (targetTable fileName +:+ ".csv")]
       ∧ ran = []
       ∨ trace s = trace s0 ++ callsBeforeExec d fileName ++ (EvExec <$> ran)
         ∧ ∃ e, r = Ret e)
    ∧ (length ran ≤ 2)%nat.
Proof.
  destruct (LoadDataFileToRedshift_runEnd C d fileName s0) as (r & s & ran & Hrun & Hend).
  exists r, s, ran. split; [done|]. by eapply runEnd_trace.
Qed.


(** X12. A schema file of at most one record (empty, or the header alone)
    parses to the empty schema without error. The run then depends on the
    table: if it exists the copy statement is executed with an empty
    FIXEDWIDTH clause; if not, the run ends with the column-count error for
    0 columns and executes nothing. *)
Theorem LoadDataFileToRedshift_empty_schema d fileName s0 s1 s2 rawSchema lines
    tableExists :
  fetchTableSchema C d (targetTable fileName) s0 = (Ret (rawSchema, None), s1) →
  csv.ReadAll rawSchema = (lines, None) →
  (length lines ≤ 1)%nat →
  checkIfRedShiftTableExists C d (targetTable fileName) s1
  = (Ret (tableExists, None), s2) →
  marshalTableSchema rawSchema = Ret ([], None)
  ∧ LoadDataFileToRedshift C d fileName s0
    = if tableExists then
        let copy :=
          "COPY " +:+ targetTable fileName +:+ " FROM 's3://" +:+ DataBucket d
          +:+ "/" +:+ fileName +:+ "' IAM_ROLE '" +:+ specRoleArn (Env d)
          +:+ "' FIXEDWIDTH '';" in
        let '(err, w) := ExecContext C copy (world s2) in
        (Ret err, Build_state w (trace s2 ++ [EvExec copy]))
      else (Ret (Some (InvalidSchemaError 0)), s2).
Proof.
  intros Hfetch HR Hlen Hcheck.
  assert (Hparse : marshalTableSchema rawSchema = Ret ([], None)).
  { unfold marshalTableSchema. rewrite HR.
    by destruct lines as [|header [|row rows]]; [| |simpl in Hlen; lia]. }
  split; [done|].
  rewrite (LoadDataFileToRedshift_after_check C _ _ _ _ _ _ _ _ Hfetch Hparse Hcheck).
  cbv zeta. destruct tableExists; [|done].
  assert (Hcopy : buildCopyFromS3Query d [] (targetTable fileName) fileName
    = "COPY " +:+ targetTable fileName +:+ " FROM 's3://" +:+ DataBucket d
      +:+ "/" +:+ fileName +:+ "' IAM_ROLE '" +:+ specRoleArn (Env d)
      +:+ "' FIXEDWIDTH '';").
  { unfold buildCopyFromS3Query, specRoleArn. cbn [copyLoop].
    by rewrite !app_assoc_s. }
  by rewrite Hcopy.
Qed.

End RunProperties.


Lemma LoadDataFileToRedshift_empty_schema_witness :
  marshalTableSchema headerOnlySchema = Ret ([], None)
  ∧ LoadDataFileToRedshift (fakeCollaborators headerOnlySchema) testLoader testFile
      (Build_state true [])
    = (Ret None,
       Build_state true
         (testCalls
          ++ [EvExec "COPY testformat1 FROM 's3://testDB/testformat1_2015-06-28.txt' IAM_ROLE 'arn:aws:iam::653026974230:role/data-loader-redshift-copy--us-west-2' FIXEDWIDTH '';"])).
Proof.
  refine (LoadDataFileToRedshift_empty_schema (fakeCollaborators headerOnlySchema)
            testLoader testFile (Build_state true [])
            (Build_state true [EvGetObject "testSchemas" "testformat1.csv"])
            (Build_state true testCalls) headerOnlySchema
            [["column name"; "width"; "datatype"]] true _ _ _ _).
  - by vm_compute.
  - by vm_compute.
  - simpl. lia.
  - by vm_compute.
Defined.

(** ** The handler *)

Section HandlerProperties.

Context {World : Type} (C : Collaborators World).
Implicit Types (s : state World) (d : DataLoader).

Lemma handle_respond d records s :
  handle C d records s = respond (handleLoop C d records None s).
Proof.
  unfold handle, respond, mbind, M_bind, mret, M_ret.
  by destruct (handleLoop C d records None s) as [[[e|]|p] s'].
Qed.

Lemma handleLoop_snoc d records record err s :
  handleLoop C d (records ++ [record]) err s
  = match handleLoop C d records err s with
    | (Ret _, s1) => LoadDataFileToRedshift C d (Key record) s1
    | (Panic p, s1) => (Panic p, s1)
    end.
Proof.
  revert err s. induction records as [|r records IH]; intros err s.
  - cbn [app handleLoop]. unfold mbind, M_bind, mret, M_ret.
    by destruct (LoadDataFileToRedshift C d (Key record) s) as [[o|p] s1].
  - cbn [app handleLoop]. unfold mbind, M_bind.
    destruct (LoadDataFileToRedshift C d (Key r) s) as [[o|p] s1]; [|done].
    apply IH.
Qed.

Lemma getObjects_app t1 t2 : getObjects (t1 ++ t2) = getObjects t1 ++ getObjects t2.
Proof. apply omap_app. Qed.

Lemma getObjects_execs ran : getObjects (EvExec <$> ran) = [].
Proof. by induction ran. Qed.

Lemma LoadDataFileToRedshift_getObjects d fileName s0 r s :
  LoadDataFileToRedshift C d fileName s0 = (r, s) →
  getObjects (trace s)
  = getObjects (trace s0) ++ [(SchemaBucket d, targetTable fileName +:+ ".csv")].
Proof.
  intros Hrun.
  destruct (LoadDataFileToRedshift_runEnd C d fileName s0)
    as (r' & s' & ran & Hrun' & Hend).
  rewrite Hrun in Hrun'. injection Hrun' as <- <-.
  apply runEnd_trace in Hend as [[[-> _] | [-> _]] _].
  - by rewrite getObjects_app.
  - rewrite !getObjects_app, getObjects_execs. by rewrite app_nil_r.
Qed.

Lemma handleLoop_getObjects d records err s0 e s :
  handleLoop C d records err s0 = (Ret e, s) →
  getObjects (trace s)
  = getObjects (trace s0)
    ++ ((λ record, (SchemaBucket d, targetTable (Key record) +:+ ".csv")) <$> records).
Proof.
  revert err s0. induction records as [|record records IH]; intros err s0.
  - intros [= _ <-]. by rewrite app_nil_r.
  - cbn [handleLoop]. unfold mbind, M_bind.
    destruct (LoadDataFileToRedshift C d (Key record) s0) as [[o|p] s1] eqn:Hrun;
      [|intros [=]].
    intros Hloop. rewrite (IH _ _ Hloop).
    rewrite (LoadDataFileToRedshift_getObjects _ _ _ _ _ Hrun).
    by rewrite <- app_assoc.
Qed.

(** X13. [handle] answers for the last record only. On an event without
    records it reports success and calls nothing. Once the records before
    the last have been handled without a panic, whatever error they gave is
    dropped: the response is that of the run on the last record, success if
    that run returns no error, its error otherwise. *)
Theorem handle_last_record d s0 :
  handle C d [] s0 = (Ret (Some {| Success := true |}, None), s0)
  ∧ ∀ records record res s1,
      handle C d records s0 = (Ret res, s1) →
      handle C d (records ++ [record]) s0
      = respond (LoadDataFileToRedshift C d (Key record) s1).
Proof.
  split; [done|]. intros records record res s1.
  rewrite !handle_respond, handleLoop_snoc.
  destruct (handleLoop C d records None s0) as [[[e|]|p] s'];
    simpl; intros [= <- <-] || intros [=]; done.
Qed.

(** X14. [handle] goes through all the records, failed runs or not: when
    it returns, the schema object of every record has been fetched, once
    each and in the order of the records. *)
Theorem handle_fetches_every_schema d records s0 res s :
  handle C d records s0 = (Ret res, s) →
  getObjects (trace s)
  = getObjects (trace s0)
    ++ ((λ record, (SchemaBucket d, targetTable (Key record) +:+ ".csv")) <$> records).
Proof.
  rewrite handle_respond.
  destruct (handleLoop C d records None s0) as [[[e|]|p] s'] eqn:Hloop;
    simpl; intros [= <- <-] || intros [=]; by eapply handleLoop_getObjects.
Qed.

End HandlerProperties.

Lemma handle_last_record_witness :
  handle (missingSchemaCollaborators testRawSchema "bad.csv") testLoader
    ([ {| Key := "bad_2015-06-28.txt" |} ] ++ [ {| Key := testFile |} ])
    (Build_state () [])
  = (Ret (Some {| Success := true |}, None),
     Build_state ()
       ([EvGetObject "testSchemas" "bad.csv"] ++ testCalls ++ [EvExec testCopy])).
Proof.
  refine (proj2 (handle_last_record (missingSchemaCollaborators testRawSchema "bad.csv")
            testLoader (Build_state () []))
            [ {| Key := "bad_2015-06-28.txt" |} ] {| Key := testFile |}
            (None, Some testError)
            (Build_state () [EvGetObject "testSchemas" "bad.csv"]) _).
  by vm_compute.
Defined.

Lemma handle_fetches_every_schema_witness :
  getObjects
    ([EvGetObject "testSchemas" "bad.csv"] ++ testCalls ++ [EvExec testCopy])
  = [] ++ [ ("testSchemas", "bad.csv"); ("testSchemas", "testformat1.csv") ].
Proof.
  refine (handle_fetches_every_schema
            (missingSchemaCollaborators testRawSchema "bad.csv") testLoader
            [ {| Key := "bad_2015-06-28.txt" |}; {| Key := testFile |} ]
            (Build_state () []) (Some {| Success := true |}, None)
            (Build_state ()
               ([EvGetObject "testSchemas" "bad.csv"] ++ testCalls ++ [EvExec testCopy]))
            _).
  by vm_compute.
Defined.

(** ** Start-up *)

(** X15. [main] checks its three variables before it asks for anything:
    with a session, if ENVIRONMENT_NAME, DATA_BUCKET or SCHEMA_BUCKET is
    unset or empty, [main] panics with the message naming the first of them
    in that order, having fetched no parameter and opened no connection. *)
Theorem main_missing_variable {World : Type} (S : StartupCollaborators World)
    environ w w' :
  NewSession S w = (None, w') →
  (Getenv environ "ENVIRONMENT_NAME" = "" →
     main S environ w = (inl (PanicString "ENVIRONMENT_NAME undefined"), (w', [EvNewSession])))
  ∧ (Getenv environ "ENVIRONMENT_NAME" ≠ "" → Getenv environ "DATA_BUCKET" = "" →
     main S environ w = (inl (PanicString "DATA_BUCKET undefined"), (w', [EvNewSession])))
  ∧ (Getenv environ "ENVIRONMENT_NAME" ≠ "" → Getenv environ "DATA_BUCKET" ≠ "" →
     Getenv environ "SCHEMA_BUCKET" = "" →
     main S environ w = (inl (PanicString "SCHEMA_BUCKET undefined"), (w', [EvNewSession]))).
Proof.
  intros Hsess. unfold main. rewrite Hsess. lazy beta iota zeta. split; [|split].
  - intros He. by rewrite decide_True.
  - intros He Hd. rewrite decide_False by done. by rewrite decide_True.
  - intros He Hd Hs. rewrite !decide_False by done. by rewrite decide_True.
Qed.

Lemma main_missing_variable_witness :
  main testStartup (delete "DATA_BUCKET" testEnviron) ()
  = (inl (PanicString "DATA_BUCKET undefined"), ((), [EvNewSession])).
Proof.
  refine (proj1 (proj2 (main_missing_variable testStartup
            (delete "DATA_BUCKET" testEnviron) () () eq_refl)) _ _).
  - by vm_compute.
  - by vm_compute.
Defined.



(** ** What reaches the warehouse *)

Section StatementProperties.

Context {World : Type} (C : Collaborators World).
Implicit Types (s : state World) (d : DataLoader).





(** X18. A panic in the run on one record ends [handle] there: the
    records after it are not processed and no response is returned. *)
Theorem handle_panic d before record after res s0 s1 p s2 :
  handle C d before s0 = (Ret res, s1) →
  LoadDataFileToRedshift C d (Key record) s1 = (Panic p, s2) →
  handle C d (before ++ record :: after) s0 = (Panic p, s2).
Proof.
  rewrite !handle_respond.
  assert (Hloop : ∀ records err s,
    handleLoop C d (records ++ record :: after) err s
    = match handleLoop C d records err s with
      | (Ret _, s') =>
          match LoadDataFileToRedshift C d (Key record) s' with
          | (Ret err', s'') => handleLoop C d after err' s''
          | (Panic p', s'') => (Panic p', s'')
          end
      | (Panic p', s') => (Panic p', s')
      end).
  { induction records as [|r0 records IH]; intros err s.
    - done.
    - cbn [app handleLoop]. unfold mbind, M_bind.
      destruct (LoadDataFileToRedshift C d (Key r0) s) as [[o|p'] s']; [|done].
      apply IH. }
  rewrite Hloop.
  destruct (handleLoop C d before None s0) as [[[e|]|p'] s'];
    simpl; intros [= <- <-] || intros [=]; intros ->; done.
Qed.

End StatementProperties.


Lemma handle_panic_witness :
  handle (fakeCollaborators twoFieldSchema) testLoader
    ([] ++ {| Key := testFile |} :: [ {| Key := "other_1.txt" |} ])
    (Build_state true [])
  = (Panic (IndexOutOfRange 2 2),
     Build_state true [EvGetObject "testSchemas" "testformat1.csv"]).
Proof.
  refine (handle_panic (fakeCollaborators twoFieldSchema) testLoader []
            {| Key := testFile |} [ {| Key := "other_1.txt" |} ]
            (Some {| Success := true |}, None)
            (Build_state true []) (Build_state true [])
            (IndexOutOfRange 2 2)
            (Build_state true [EvGetObject "testSchemas" "testformat1.csv"]) _ _).
  - by vm_compute.
  - by vm_compute.
Defined.
